(** * PomoBot: the staged interval timer of [bot/Timer/Timer.py]

    A shallow embedding of the classes [Timer], [TimerState], [TimerStage],
    [TimerChannel] and [TimerSubscriber], followed by the properties of the
    timer engine that are stated about them.

    Conventions of the embedding.
    - Python integers are [Z]; [int(time.time())] is the argument [now] of the
      operation that reads the clock.
    - A Python [str] is the list of its code points, so that [len] and the
      padding of format fields count what Python counts.
    - An attribute that may hold [None] is an [option].
    - A method mutates its object in place and the mutation survives an
      exception raised later in the same method: methods are computations in a
      monad whose state is kept when the result is [Raise].
    - A call to a collaborator (discord channel, message) is recorded in a
      trace of events; what the collaborator answers is read from a [World]. *)

From Stdlib Require Import ZArith List String Ascii Bool Lia DecimalString.
Import ListNotations.
Open Scope Z_scope.

Set Implicit Arguments.

(** ** Exceptions and results *)

(** The exception classes that the code can meet.  The discord class
    [Forbidden] derives from [HTTPException]; every class derives from
    [Exception]. *)
Inductive exn : Type :=
| AttributeError
| TypeError
| IndexError
| ValueError
| ZeroDivisionError
| Forbidden
| HTTPException.

Inductive result (A : Type) : Type :=
| Ok (a : A)
| Raise (e : exn).
Arguments Ok {A} a.
Arguments Raise {A} e.

(** [except Exception] *)
Definition is_Exception (e : exn) : bool := true.

(** [except discord.Forbidden] *)
Definition is_Forbidden (e : exn) : bool :=
  match e with Forbidden => true | _ => false end.

Definition rbind {A B} (r : result A) (k : A -> result B) : result B :=
  match r with Ok a => k a | Raise e => Raise e end.

Fixpoint rmap {A B} (f : A -> result B) (l : list A) : result (list B) :=
  match l with
  | [] => Ok []
  | x :: tl => rbind (f x) (fun y => rbind (rmap f tl) (fun ys => Ok (y :: ys)))
  end.

(** ** Strings *)

Definition str : Type := list N.

Definition lit (s : string) : str := map N_of_ascii (list_ascii_of_string s).

(** [str(z)] for an int *)
Definition str_of_int (z : Z) : str := lit (NilZero.string_of_int (Z.to_int z)).

(** [sep.join(parts)] *)
Fixpoint join (sep : str) (parts : list str) : str :=
  match parts with
  | [] => []
  | [p] => p
  | p :: rest => p ++ sep ++ join sep rest
  end.

(** the format field [{:>width}]: right-aligned, padded with spaces *)
Definition rjust (width : nat) (s : str) : str :=
  repeat 32%N (width - List.length s) ++ s.

(** the format field [{:0widthd}]: zero padding placed after the sign *)
Definition format_0d (width : nat) (z : Z) : str :=
  if z <? 0
  then lit "-" ++ repeat 48%N (width - 1 - List.length (str_of_int (- z))) ++ str_of_int (- z)
  else repeat 48%N (width - List.length (str_of_int z)) ++ str_of_int z.

(** ** Sequences *)

(** [l[i]]: a negative index counts from the end, an index out of range
    raises [IndexError]. *)
Definition getitem {A} (l : list A) (i : Z) : result A :=
  let n := Z.of_nat (List.length l) in
  let j := if i <? 0 then i + n else i in
  if (0 <=? j) && (j <? n)
  then match nth_error l (Z.to_nat j) with
       | Some x => Ok x
       | None => Raise IndexError
       end
  else Raise IndexError.

(** [x % n] on ints: the result has the sign of [n]; [n = 0] raises. *)
Definition py_mod (x n : Z) : result Z :=
  if n =? 0 then Raise ZeroDivisionError else Ok (x mod n).

(** [max(...)] over a generator: [ValueError] on an empty one. *)
Definition py_max (l : list Z) : result Z :=
  match l with
  | [] => Raise ValueError
  | x :: tl => Ok (fold_left Z.max tl x)
  end.

(** ** Collaborator objects

  Discord objects are known to the timer only through the attributes it
  reads; channels and messages are handles. *)

Definition handle : Type := Z.

Module Guild.
Record t : Type := mk { id : Z }.
End Guild.

Module Member.
Record t : Type := mk { id : Z; name : str; guild : Guild.t }.
End Member.

Module Role.
Record t : Type := mk { id : Z; mention : str }.
End Role.

Module Interface.
Record t : Type := mk { client : handle }.
End Interface.

(** ** TimerState *)

Inductive TimerState : Type := STOPPED | RUNNING | PAUSED.

Definition TimerState_eqb (a b : TimerState) : bool :=
  match a, b with
  | STOPPED, STOPPED | RUNNING, RUNNING | PAUSED, PAUSED => true
  | _, _ => false
  end.

(** ** TimerStage *)

Module TimerStage.
Record t : Type := mk {
  name : str;
  duration : Z;
  message : str;
  focus : bool;
  modifiers : list (str * bool)
}.

(** [TimerStage(name, duration, message, focus, **modifiers)] *)
Definition __init__ (name : str) (duration : Z) (message : str) (focus : bool)
           (modifiers : list (str * bool)) : t :=
  mk name duration message focus modifiers.
End TimerStage.

(** ** TimerSubscriber *)

Module TimerSubscriber.

(** What a subscriber sees of the timer it belongs to: the code follows
    [self.timer] only to [self.timer.role]. *)
Record timer_ref : Type := mk_ref { role : Role.t }.

Record t : Type := mk {
  member : Member.t;
  timer : timer_ref;
  interface : Interface.t;
  client : handle;
  id : Z;
  time_joined : Z;
  last_updated : Z;
  clocked_time : Z;
  active : bool;
  last_seen : Z;
  warnings : Z
}.

Definition __slots__ : list string :=
  [ "member"; "timer"; "interface"; "client"; "id"; "time_joined";
    "last_updated"; "clocked_time"; "active"; "last_seen"; "warnings" ]%string.

Definition in_slots (a : string) : bool := existsb (String.eqb a) __slots__.

(** [__init__(self, member, timer, interface)] *)
Definition __init__ (now : Z) (member : Member.t) (timer : timer_ref)
           (interface : Interface.t) : t :=
  {| member := member;
     timer := timer;
     interface := interface;
     client := Interface.client interface;
     id := Member.id member;
     time_joined := now;
     last_updated := now;
     clocked_time := 0;
     active := true;
     last_seen := now;
     warnings := 0 |}.

Definition bump (now : Z) (self : t) : t :=
  {| member := member self; timer := timer self; interface := interface self;
     client := client self; id := id self;
     time_joined := time_joined self;
     last_updated := last_updated self;
     clocked_time := clocked_time self;
     active := active self;
     last_seen := now;
     warnings := 0 |}.

Definition touch (now : Z) (self : t) : t :=
  {| member := member self; timer := timer self; interface := interface self;
     client := client self; id := id self;
     time_joined := time_joined self;
     last_updated := now;
     clocked_time :=
       clocked_time self + (if active self then now - last_updated self else 0);
     active := active self;
     last_seen := last_seen self;
     warnings := warnings self |}.

(** [session_data] touches the subscriber and returns the tuple. *)
Definition session_data (now : Z) (self : t) : t * (Z * Z * Z * Z * Z) :=
  let self' := touch now self in
  (self', (id self', Guild.id (Member.guild (member self')),
           Role.id (role (timer self')), time_joined self', clocked_time self')).

(** *** Attribute access by name

    The class declares [__slots__], so an instance has no [__dict__]:
    reading or binding a name that is not a slot raises [AttributeError].
    [attr] lists the integer attributes that the class body names on
    [self]; [serialise] and [deserialise] reach them through [getattr] and
    [setattr]. *)

Inductive attr : Type :=
| A_id | A_time_joined | A_last_updated | A_clocked_time
| A_time_subbed | A_last_seen | A_warnings.

Definition attr_name (a : attr) : string :=
  match a with
  | A_id => "id"
  | A_time_joined => "time_joined"
  | A_last_updated => "last_updated"
  | A_clocked_time => "clocked_time"
  | A_time_subbed => "time_subbed"
  | A_last_seen => "last_seen"
  | A_warnings => "warnings"
  end.

Definition getattr (self : t) (a : attr) : result Z :=
  match a with
  | A_id => Ok (id self)
  | A_time_joined => Ok (time_joined self)
  | A_last_updated => Ok (last_updated self)
  | A_clocked_time => Ok (clocked_time self)
  | A_last_seen => Ok (last_seen self)
  | A_warnings => Ok (warnings self)
  | A_time_subbed => Raise AttributeError
  end.

Definition setattr (self : t) (a : attr) (v : Z) : result t :=
  let upd i tj lu ct ls wa :=
    {| member := member self; timer := timer self; interface := interface self;
       client := client self; id := i;
       time_joined := tj; last_updated := lu; clocked_time := ct;
       active := active self; last_seen := ls; warnings := wa |} in
  match a with
  | A_id =>
      Ok (upd v (time_joined self) (last_updated self) (clocked_time self)
              (last_seen self) (warnings self))
  | A_time_joined =>
      Ok (upd (id self) v (last_updated self) (clocked_time self)
              (last_seen self) (warnings self))
  | A_last_updated =>
      Ok (upd (id self) (time_joined self) v (clocked_time self)
              (last_seen self) (warnings self))
  | A_clocked_time =>
      Ok (upd (id self) (time_joined self) (last_updated self) v
              (last_seen self) (warnings self))
  | A_last_seen =>
      Ok (upd (id self) (time_joined self) (last_updated self) (clocked_time self)
              v (warnings self))
  | A_warnings =>
      Ok (upd (id self) (time_joined self) (last_updated self) (clocked_time self)
              (last_seen self) v)
  | A_time_subbed => Raise AttributeError
  end.

(** The tuple built by [serialise]; its components are evaluated from left
    to right. *)
Definition serialise (self : t) : result (list Z) :=
  rbind (getattr self A_id) (fun d0 =>
  let d1 := Guild.id (Member.guild (member self)) in
  let d2 := Role.id (role (timer self)) in
  rbind (getattr self A_time_joined) (fun d3 =>
  rbind (getattr self A_last_updated) (fun d4 =>
  rbind (getattr self A_time_subbed) (fun d5 =>
  rbind (getattr self A_last_seen) (fun d6 =>
  rbind (getattr self A_warnings) (fun d7 =>
  Ok [d0; d1; d2; d3; d4; d5; d6; d7])))))).

(** [deserialise(cls, member, timer, interface, data)]: in each assignment
    the right-hand side [data[k]] is evaluated before the attribute is
    bound. *)
Definition deserialise (now : Z) (member : Member.t) (timer : timer_ref)
           (interface : Interface.t) (data : list Z) : result t :=
  let self := __init__ now member timer interface in
  rbind (getitem data 3) (fun v => rbind (setattr self A_time_joined v) (fun self =>
  rbind (getitem data 4) (fun v => rbind (setattr self A_last_updated v) (fun self =>
  rbind (getitem data 5) (fun v => rbind (setattr self A_time_subbed v) (fun self =>
  rbind (getitem data 6) (fun v => rbind (setattr self A_last_seen v) (fun self =>
  rbind (getitem data 7) (fun v => rbind (setattr self A_warnings v) (fun self =>
  Ok self)))))))))).

End TimerSubscriber.

(** ** Calls to collaborators *)

Module Embed.
Record t : Type := mk { title : str; description : str; timestamp : Z }.
End Embed.

(** What [channel.send] is given: a text, or [embed=...]. *)
Inductive content : Type :=
| Text (s : str)
| WithEmbed (e : Embed.t).

(** A coroutine object handed to [asyncio.ensure_future]. *)
Inductive coroutine : Type := Runloop.

Inductive event : Type :=
| EvSend (channel : handle) (c : content)
| EvAddReaction (message : handle) (emoji : str)
| EvMessageEdit (message : handle) (e : Embed.t)
| EvMessagePin (message : handle)
| EvChannelEdit (channel : handle) (name : str)
| EvEnsureFuture (c : coroutine).

(** The status messages created, and the edits of a status message, in a
    trace. *)
Definition embeds_sent (tr : list event) : list event :=
  filter (fun ev => match ev with EvSend _ (WithEmbed _) => true | _ => false end) tr.

Definition message_edits (tr : list event) : list event :=
  filter (fun ev => match ev with EvMessageEdit _ _ => true | _ => false end) tr.

(** The answers of the collaborators: the message created by a send, or the
    exception the call raises. *)
Record World : Type := mkWorld {
  w_send : handle -> content -> result handle;
  w_add_reaction : handle -> str -> result unit;
  w_message_edit : handle -> Embed.t -> result unit;
  w_message_pin : handle -> result unit;
  w_channel_edit : handle -> str -> result unit
}.

(** ** The monad of methods

    A method started on an object in state [S] ends with the object in its
    final state (also when it raises), the calls it made, and its result. *)

Record outcome (S A : Type) : Type := Out {
  final : S;
  trace : list event;
  value : result A
}.

Definition M (S A : Type) : Type := S -> outcome S A.

Definition ret {S A} (a : A) : M S A := fun s => Out s [] (Ok a).

Definition raise {S A} (e : exn) : M S A := fun s => Out s [] (Raise e).

Definition lift {S A} (r : result A) : M S A := fun s => Out s [] r.

Definition bind {S A B} (m : M S A) (k : A -> M S B) : M S B :=
  fun s =>
    let o := m s in
    match value o with
    | Ok a => let o' := k a (final o) in
              Out (final o') (trace o ++ trace o') (value o')
    | Raise e => Out (final o) (trace o) (Raise e)
    end.

Definition get {S} : M S S := fun s => Out s [] (Ok s).

Definition modify {S} (f : S -> S) : M S unit := fun s => Out (f s) [] (Ok tt).

(** [await] of a collaborator's coroutine: the call is recorded and the
    world's answer is its result. *)
Definition await {S A} (ev : event) (answer : result A) : M S A :=
  fun s => Out s [ev] answer.

(** [try: body  except <class>: handler] *)
Definition try_except {S A} (body : M S A) (catches : exn -> bool)
           (handler : M S A) : M S A :=
  fun s =>
    let o := body s in
    match value o with
    | Ok _ => o
    | Raise e =>
        if catches e
        then let o' := handler (final o) in
             Out (final o') (trace o ++ trace o') (value o')
        else o
    end.

Declare Scope method_scope.
Delimit Scope method_scope with method.
Notation "x <- m ;; k" := (bind m (fun x => k))
  (at level 61, m at next level, right associativity) : method_scope.
Notation "m ;; k" := (bind m (fun _ => k))
  (at level 61, right associativity) : method_scope.
Open Scope method_scope.

Fixpoint for_each {S A} (l : list A) (body : A -> M S unit) : M S unit :=
  match l with
  | [] => ret tt
  | x :: tl => body x ;; for_each tl body
  end.

(** The method ends with the attribute [f] of its object as it found it,
    whether it returns or raises. *)
Definition keeps {S X A} (f : S -> X) (m : M S A) : Prop :=
  forall s, f (final (m s)) = f s.

(** ** Timer *)

Module Timer.

Record t : Type := mk {
  channel : handle;
  clock_channel : option handle;
  role : Role.t;
  name : str;
  start_time : option Z;
  current_stage_start : option Z;
  remaining : option Z;
  state : TimerState;
  stages : option (list TimerStage.t);
  current_stage : Z;
  subscribed : list (Z * TimerSubscriber.t);
  last_clockupdate : Z
}.

Definition clock_period : Z := 5.

Definition set_start_time (v : option Z) (self : t) : t :=
  mk (channel self) (clock_channel self) (role self) (name self)
     v (current_stage_start self) (remaining self) (state self)
     (stages self) (current_stage self) (subscribed self) (last_clockupdate self).

Definition set_current_stage_start (v : option Z) (self : t) : t :=
  mk (channel self) (clock_channel self) (role self) (name self)
     (start_time self) v (remaining self) (state self)
     (stages self) (current_stage self) (subscribed self) (last_clockupdate self).

Definition set_remaining (v : option Z) (self : t) : t :=
  mk (channel self) (clock_channel self) (role self) (name self)
     (start_time self) (current_stage_start self) v (state self)
     (stages self) (current_stage self) (subscribed self) (last_clockupdate self).

Definition set_state (v : TimerState) (self : t) : t :=
  mk (channel self) (clock_channel self) (role self) (name self)
     (start_time self) (current_stage_start self) (remaining self) v
     (stages self) (current_stage self) (subscribed self) (last_clockupdate self).

Definition set_stages (v : option (list TimerStage.t)) (self : t) : t :=
  mk (channel self) (clock_channel self) (role self) (name self)
     (start_time self) (current_stage_start self) (remaining self) (state self)
     v (current_stage self) (subscribed self) (last_clockupdate self).

Definition set_current_stage (v : Z) (self : t) : t :=
  mk (channel self) (clock_channel self) (role self) (name self)
     (start_time self) (current_stage_start self) (remaining self) (state self)
     (stages self) v (subscribed self) (last_clockupdate self).

Definition set_subscribed (v : list (Z * TimerSubscriber.t)) (self : t) : t :=
  mk (channel self) (clock_channel self) (role self) (name self)
     (start_time self) (current_stage_start self) (remaining self) (state self)
     (stages self) (current_stage self) v (last_clockupdate self).

(** [len(self.stages)] and [self.stages[i]]: [None] has neither. *)
Definition len (stages : option (list TimerStage.t)) : result Z :=
  match stages with
  | None => Raise TypeError
  | Some l => Ok (Z.of_nat (List.length l))
  end.

Definition subscript (stages : option (list TimerStage.t)) (i : Z)
  : result TimerStage.t :=
  match stages with
  | None => Raise TypeError
  | Some l => getitem l i
  end.

(** Truth value of the [stages] argument in [if stages:]. *)
Definition truthy (stages : option (list TimerStage.t)) : bool :=
  match stages with
  | None | Some [] => false
  | Some (_ :: _) => true
  end.

Definition setup (now : Z) (stages : option (list TimerStage.t)) : M t unit :=
  modify (set_state STOPPED) ;;
  modify (set_stages stages) ;;
  modify (set_current_stage 0) ;;
  modify (set_start_time (Some now)) ;;
  stage0 <- lift (subscript stages 0) ;;
  modify (set_remaining (Some (TimerStage.duration stage0))) ;;
  modify (set_current_stage_start (Some now)).

(** [Timer(name, role, channel, clock_channel, stages=None)] *)
Definition __init__ (now : Z) (name : str) (role : Role.t) (channel : handle)
           (clock_channel : option handle)
           (stages : option (list TimerStage.t)) : outcome t unit :=
  let self := mk channel clock_channel role name None None None STOPPED stages 0 [] 0 in
  if truthy stages then setup now stages self else ret tt self.

(** [userid in timer] *)
Definition __contains__ (self : t) (userid : Z) : bool :=
  existsb (fun kv => fst kv =? userid) (subscribed self).

Definition pretty_remaining (self : t) : result str :=
  match remaining self with
  | None => Raise TypeError
  | Some diff =>
      let diff := Z.max diff 0 in
      let hours := diff / 3600 in
      let minutes := (diff mod 3600) / 60 in
      let seconds := diff mod 60 in
      Ok (format_0d 2 hours ++ lit ":" ++ format_0d 2 minutes ++ lit ":"
            ++ format_0d 2 seconds)
  end.

(** One line of the stage listing: the format string
    [`{prefix}{name:>W}:` {dur} min  {current}] filled for stage [i]. *)
Definition stage_line (self : t) (width : nat) (remaining : str)
           (i : nat) (stage : TimerStage.t) : str :=
  let is_current := Z.of_nat i =? current_stage self in
  let prefix := if is_current then lit "->" else [8203%N; 32%N; 32%N] in
  let current := if is_current then lit "(**" ++ remaining ++ lit "**)" else [] in
  lit "`" ++ prefix ++ rjust width (TimerStage.name stage) ++ lit ":` "
    ++ str_of_int (TimerStage.duration stage) ++ lit " min  " ++ current.

(** [enumerate(l)] *)
Fixpoint enumerate_from {A} (i : nat) (l : list A) : list (nat * A) :=
  match l with
  | [] => []
  | x :: tl => (i, x) :: enumerate_from (S i) tl
  end.

(** [self.subscribed.values()], in insertion order *)
Definition values (self : t) : list TimerSubscriber.t := map snd (subscribed self).

(** Iterating [self.subscribed] itself yields the keys of the dict. *)
Definition iter_subscribed (self : t) : list Z := map fst (subscribed self).

Definition pretty_pinstatus (self : t) : result str :=
  match state self with
  | RUNNING | PAUSED =>
      rbind (subscript (stages self) (current_stage self)) (fun current =>
      let current_stage_name := TimerStage.name current in
      rbind (pretty_remaining self) (fun remaining =>
      let subbed_names :=
        map (fun m => Member.name (TimerSubscriber.member m)) (values self) in
      let subbed_str :=
        match subbed_names with
        | [] => lit "*No subscribers*"
        | _ => lit "```" ++ join (lit ", ") subbed_names ++ lit "```"
        end in
      match stages self with
      | None => Raise TypeError
      | Some stage_list =>
          rbind (py_max (map (fun st => Z.of_nat (List.length (TimerStage.name st)))
                             stage_list)) (fun longest_stage_len =>
          let stage_str_lines :=
            map (fun p => stage_line self (Z.to_nat longest_stage_len) remaining
                                     (fst p) (snd p))
                (enumerate_from 0 stage_list) in
          let stage_str := join [10%N] stage_str_lines in
          Ok (lit "**" ++ name self ++ lit "** (" ++ current_stage_name ++ lit ")"
                ++ (match state self with PAUSED => lit " ***Paused***" | _ => [] end)
                ++ [10%N] ++ stage_str ++ [10%N] ++ subbed_str))
      end))
  | STOPPED => Ok (lit "**" ++ name self ++ lit "**: *Not set up.*")
  end.

(** [pretty_summary] is a stub returning [None]. *)
Definition pretty_summary (self : t) : option str := None.

(** An int has no attribute [touch]: [userid.touch()] raises. *)
Definition int_touch (userid : Z) : result unit := Raise AttributeError.

Section Methods.

Variable w : World.

Definition update_clock_channel (now : Z) : M t unit :=
  self <- get ;;
  match clock_channel self with
  | None => ret tt
  | Some clock =>
      if now - last_clockupdate self <? clock_period then ret tt
      else
        stage <- lift (subscript (stages self) (current_stage self)) ;;
        let stage_name := TimerStage.name stage in
        remaining_time <- lift (pretty_remaining self) ;;
        let new_name := stage_name ++ lit " - " ++ remaining_time in
        try_except (await (EvChannelEdit clock new_name) (w_channel_edit w clock new_name))
                   is_Exception (ret tt)
  end.

(** The text of the notification that [change_stage] sends. *)
Definition announcement (self : t) (current_stage new_stage : TimerStage.t)
           (report_old : bool) : str :=
  let old_stage_str :=
    if report_old
    then lit "**" ++ TimerStage.name current_stage ++ lit "** finished! "
    else [] in
  Role.mention (role self) ++ [10%N] ++ old_stage_str
    ++ lit "Starting **" ++ TimerStage.name new_stage ++ lit "** ("
    ++ str_of_int (TimerStage.duration new_stage) ++ lit " minutes). "
    ++ TimerStage.message new_stage ++ [10%N]
    ++ lit "Please react to this message to register your presence!".

(** The block under [if notify:] of [change_stage]: the message is sent,
    and a failure to add the reaction to it is swallowed. *)
Definition announce (self : t) (current_stage new_stage : TimerStage.t)
           (report_old : bool) : M t unit :=
  let text := announcement self current_stage new_stage report_old in
  out_msg <- await (EvSend (channel self) (Text text))
                   (w_send w (channel self) (Text text)) ;;
  try_except (await (EvAddReaction out_msg [9989%N])
                    (w_add_reaction w out_msg [9989%N]))
             is_Exception (ret tt).

Definition change_stage (now : Z) (stage_index : Z)
           (notify inactivity_check report_old : bool) : M t unit :=
  self <- get ;;
  for_each (iter_subscribed self) (fun subber => lift (int_touch subber)) ;;
  n <- lift (len (stages self)) ;;
  stage_index <- lift (py_mod stage_index n) ;;
  current_stage <- lift (subscript (stages self) (current_stage self)) ;;
  new_stage <- lift (subscript (stages self) stage_index) ;;
  (if notify then announce self current_stage new_stage report_old else ret tt) ;;
  modify (set_current_stage stage_index) ;;
  modify (set_current_stage_start (Some now)) ;;
  stage <- lift (subscript (stages self) stage_index) ;;
  modify (set_remaining (Some (TimerStage.duration stage * 60))).

Definition start (now : Z) : M t unit :=
  change_stage now 0 true true false ;;
  modify (set_state RUNNING) ;;
  await (EvEnsureFuture Runloop) (Ok tt).

(** One turn of the [while] loop of [runloop], from the test of the
    condition to the suspension in [asyncio.sleep(1)].  The clock reading is
    [now + f] seconds with [0 <= f < 1], and [frac] tells whether [f] is not
    zero: [int] truncates towards zero.  The result is [true] when the loop
    goes to sleep and [false] when the condition failed and the coroutine
    returned. *)
Definition runloop_turn (now : Z) (frac : bool) : M t bool :=
  self <- get ;;
  if TimerState_eqb (state self) RUNNING then
    stage <- lift (subscript (stages self) (current_stage self)) ;;
    started <- lift (match current_stage_start self with
                     | None => Raise TypeError
                     | Some s => Ok s
                     end) ;;
    let x := 60 * TimerStage.duration stage - (now - started) in
    modify (set_remaining (Some (if frac && (0 <? x) then x - 1 else x))) ;;
    self <- get ;;
    (match remaining self with
     | Some r => if r <=? 0
                 then change_stage now (current_stage self + 1) true true true
                 else ret tt
     | None => raise TypeError
     end) ;;
    update_clock_channel now ;;
    ret true
  else ret false.

End Methods.

End Timer.

(** ** TimerChannel *)

Module TimerChannel.

Record t : Type := mk {
  channel : handle;
  timers : list Timer.t;
  msg : option handle
}.

Definition __init__ (channel : handle) : t := mk channel [] None.

Definition set_msg (v : option handle) (self : t) : t :=
  mk (channel self) (timers self) v.

Definition set_timers (v : list Timer.t) (self : t) : t :=
  mk (channel self) v (msg self).

Definition no_embed_notice : str :=
  lit "I require permission to send embeds in this channel! Stopping all timers.".

(** The embed of the status message: the statuses joined by a blank line. *)
Definition status_embed (now : Z) (messages : list str) : Embed.t :=
  let desc := join [10%N; 10%N] messages in
  Embed.mk (lit "Pomodoro Timer Status") desc now.

Section Methods.

Variable w : World.

(** [self.msg.pin()]: [None] has no attribute [pin]. *)
Definition pin (msg : option handle) : M t unit :=
  match msg with
  | None => raise AttributeError
  | Some m => await (EvMessagePin m) (w_message_pin w m)
  end.

(** [for timer in self.timers: timer.state = TimerState.STOPPED] *)
Definition stop_all : M t unit :=
  modify (fun self => set_timers (map (Timer.set_state STOPPED) (timers self)) self).

Definition update (now : Z) : M t unit :=
  self <- get ;;
  messages <- lift (rmap Timer.pretty_pinstatus (timers self)) ;;
  match messages with
  | [] => ret tt
  | _ :: _ =>
      let embed := status_embed now messages in
      match msg self with
      | Some m =>
          try_except (await (EvMessageEdit m embed) (w_message_edit w m embed))
                     is_Exception (ret tt)
      | None =>
          try_except
            (m <- await (EvSend (channel self) (WithEmbed embed))
                        (w_send w (channel self) (WithEmbed embed)) ;;
             modify (set_msg (Some m)))
            is_Forbidden
            (await (EvSend (channel self) (Text no_embed_notice))
                   (w_send w (channel self) (Text no_embed_notice)) ;;
             stop_all) ;;
          try_except (self <- get ;; pin (msg self)) is_Exception (ret tt)
      end
  end.

End Methods.

End TimerChannel.

(** ** The asyncio event loop, as far as one timer's tasks go

    [asyncio.ensure_future] puts a coroutine on the loop as a task.  The
    tasks of one timer are its [runloop] coroutines: one that was just
    scheduled and one asleep in [asyncio.sleep(1)] both continue at the test
    of the [while] condition.  A turn of the loop is taken as one step here;
    the interleaving of two tasks inside a turn is not described. *)

Module EventLoop.

Record t : Type := mk {
  timer : Timer.t;
  tasks : list coroutine;
  log : list event
}.

(** The coroutines that a trace hands to [ensure_future]. *)
Definition scheduled (tr : list event) : list coroutine :=
  flat_map (fun ev => match ev with EvEnsureFuture c => [c] | _ => [] end) tr.

Section Loop.

Variable w : World.

(** A caller awaits [timer.start()]. *)
Definition call_start (now : Z) (el : t) : t * result unit :=
  let o := Timer.start w now (timer el) in
  (mk (final o) (tasks el ++ scheduled (trace o)) (log el ++ trace o), value o).

(** The loop resumes every task once.  A task stays on the loop when its
    turn ended asleep; it is done when [runloop] returned or raised. *)
Fixpoint resume_all (now : Z) (frac : bool) (todo : list coroutine) (tm : Timer.t)
  : Timer.t * list coroutine * list event :=
  match todo with
  | [] => (tm, [], [])
  | Runloop :: rest =>
      let o := Timer.runloop_turn w now frac tm in
      let '(tm', kept, tr) := resume_all now frac rest (final o) in
      (tm',
       (match value o with Ok true => [Runloop] | _ => [] end)
         ++ scheduled (trace o) ++ kept,
       trace o ++ tr)
  end.

Definition run_round (now : Z) (frac : bool) (el : t) : t :=
  let '(tm, kept, tr) := resume_all now frac (tasks el) (timer el) in
  mk tm kept (log el ++ tr).

End Loop.

(** The number of [runloop] tasks of the timer that are on the loop. *)
Definition live (el : t) : nat := List.length (tasks el).

End EventLoop.

(** The timer after it has entered stage [index]. *)
Definition entered (now index : Z) (stage : TimerStage.t) (self : Timer.t) : Timer.t :=
  Timer.set_remaining (Some (TimerStage.duration stage * 60))
    (Timer.set_current_stage_start (Some now)
       (Timer.set_current_stage index self)).

(** ** Sample objects *)

Module Sample.

(** A world in which every call succeeds. *)
Definition w_ok : World :=
  mkWorld (fun _ _ => Ok 77) (fun _ _ => Ok tt) (fun _ _ => Ok tt)
          (fun _ => Ok tt) (fun _ _ => Ok tt).

(** A channel in which the bot may send text but no embed. *)
Definition w_no_embed : World :=
  mkWorld (fun _ c => match c with Text _ => Ok 78 | WithEmbed _ => Raise Forbidden end)
          (fun _ _ => Ok tt) (fun _ _ => Ok tt) (fun _ => Ok tt) (fun _ _ => Ok tt).

(** A channel in which the bot may not send at all. *)
Definition w_no_send : World :=
  mkWorld (fun _ _ => Raise Forbidden)
          (fun _ _ => Ok tt) (fun _ _ => Ok tt) (fun _ => Ok tt) (fun _ _ => Ok tt).

Definition role : Role.t := Role.mk 9 (lit "<@&9>").

Definition work : TimerStage.t := TimerStage.__init__ (lit "Work") 25 [] false [].
Definition short_break : TimerStage.t := TimerStage.__init__ (lit "Break") 5 [] false [].
Definition long_break : TimerStage.t := TimerStage.__init__ (lit "Long break") 15 [] false [].

Definition alice : Member.t := Member.mk 42 (lit "alice") (Guild.mk 7).

Definition alice_subscriber : TimerSubscriber.t :=
  TimerSubscriber.__init__ 900 alice (TimerSubscriber.mk_ref role) (Interface.mk 1).

(** [Timer("Study", role, 1, 2, [work, short_break, long_break])], built at
    time 1000. *)
Definition study : Timer.t :=
  final (Timer.__init__ 1000 (lit "Study") role 1 (Some 2)
                    (Some [work; short_break; long_break])).

(** The same timer after [start()] at time 1000. *)
Definition study_running : Timer.t := final (Timer.start w_ok 1000 study).

(** The running timer with one subscriber. *)
Definition study_subscribed : Timer.t :=
  Timer.set_subscribed [(42, alice_subscriber)] study_running.

(** A second timer, never set up. *)
Definition idle : Timer.t :=
  final (Timer.__init__ 1000 (lit "Idle") role 1 None None).

(** A channel with both timers and no status message yet. *)
Definition board : TimerChannel.t := TimerChannel.mk 1 [study_running; idle] None.

(** The event loop after the first [start()] of [study]. *)
Definition loop_started : EventLoop.t :=
  fst (EventLoop.call_start w_ok 1000 (EventLoop.mk study [] [])).

End Sample.

(** ** Sequences of calls *)

(** [touch()] called at each of the clock readings in turn. *)
Definition touches (times : list Z) (self : TimerSubscriber.t) : TimerSubscriber.t :=
  fold_left (fun s now => TimerSubscriber.touch now s) times self.

(** [await self.change_stage(self.current_stage + 1)], the call that
    [runloop] makes at a stage boundary. *)
Definition advance (w : World) (now : Z) : M Timer.t unit :=
  self <- get ;;
  Timer.change_stage w now (Timer.current_stage self + 1) true true true.

(** That call made at each of the clock readings in turn. *)
Fixpoint advances (w : World) (times : list Z) : M Timer.t unit :=
  match times with
  | [] => ret tt
  | now :: rest => advance w now ;; advances w rest
  end.


(** A timer with its stage list [l] and a current stage in it. *)
Definition configured (l : list TimerStage.t) (self : Timer.t) : Prop :=
  Timer.stages self = Some l
  /\ 0 <= Timer.current_stage self < Z.of_nat (List.length l).

(** The code point of a decimal digit. *)
Definition digit (d : Z) : N := Z.to_N (48 + d).

(** Worlds in which calls fail. *)
Module Faulty.

(** Sends succeed; every edit, pin and reaction raises. *)
Definition w_no_edit : World :=
  mkWorld (fun _ _ => Ok 77) (fun _ _ => Raise HTTPException)
          (fun _ _ => Raise HTTPException) (fun _ => Raise HTTPException)
          (fun _ _ => Raise HTTPException).

(** Every send fails with an error that is not [Forbidden]. *)
Definition w_http_error : World :=
  mkWorld (fun _ _ => Raise HTTPException)
          (fun _ _ => Ok tt) (fun _ _ => Ok tt) (fun _ => Ok tt) (fun _ _ => Ok tt).

End Faulty.

(** The seconds left in a stage that [runloop] computes at the clock reading
    [now], with or without a fraction of a second: the expression
    [int(60*duration - (time.time() - current_stage_start))]. *)
Definition time_left (stage : TimerStage.t) (started now : Z) (frac : bool) : Z :=
  let x := 60 * TimerStage.duration stage - (now - started) in
  if frac && (0 <? x) then x - 1 else x.


(** * Properties *)

(** ** Subscriber accounting *)

Section SubscriberFacts.

Import TimerSubscriber.

Variables (now : Z) (self : TimerSubscriber.t).

Lemma touch_frame :
  member (touch now self) = member self
  /\ id (touch now self) = id self
  /\ time_joined (touch now self) = time_joined self
  /\ active (touch now self) = active self
  /\ last_seen (touch now self) = last_seen self
  /\ warnings (touch now self) = warnings self.
Proof. repeat split. Qed.

Lemma touch_inactive (later : Z) :
  active self = false ->
  clocked_time (touch later (touch now self)) = clocked_time self.
Proof. intros H. simpl. rewrite H. lia. Qed.

(** Two touches credit what one touch at the later time credits: nothing is
    counted twice and nothing is lost in between. *)
Lemma touch_touch (later : Z) :
  clocked_time (touch later (touch now self)) = clocked_time (touch later self).
Proof. simpl. destruct (active self); lia. Qed.

Lemma bump_fields :
  last_seen (bump now self) = now
  /\ warnings (bump now self) = 0
  /\ clocked_time (bump now self) = clocked_time self
  /\ last_updated (bump now self) = last_updated self.
Proof. repeat split. Qed.

(** A name can be read from an instance exactly when it is a slot. *)
Lemma getattr_slots (a : attr) :
  in_slots (attr_name a) = true <-> exists v, getattr self a = Ok v.
Proof.
  destruct a; simpl; split; intros H;
    try reflexivity; try discriminate; try (eexists; reflexivity).
  destruct H as [v H]; discriminate.
Qed.

(** A name can be bound on an instance exactly when it is a slot. *)
Lemma setattr_slots (a : attr) (v : Z) :
  in_slots (attr_name a) = true <-> exists s, setattr self a v = Ok s.
Proof.
  destruct a; simpl; split; intros H;
    try reflexivity; try discriminate; try (eexists; reflexivity).
  destruct H as [s H]; discriminate.
Qed.

End SubscriberFacts.

(** C7: [touch] adds [now - last_updated] to [clocked_time] exactly when the
    subscriber is active and adds 0 otherwise, always sets
    [last_updated = now] and changes nothing else; a second [touch] at the
    same clock reading leaves [clocked_time] as the first one left it. *)
Theorem touch_accounting (now : Z) (self : TimerSubscriber.t) :
  let once := TimerSubscriber.touch now self in
  let twice := TimerSubscriber.touch now once in
  TimerSubscriber.clocked_time once
  = TimerSubscriber.clocked_time self
    + (if TimerSubscriber.active self
       then now - TimerSubscriber.last_updated self else 0)
  /\ TimerSubscriber.last_updated once = now
  /\ TimerSubscriber.active once = TimerSubscriber.active self
  /\ TimerSubscriber.clocked_time twice = TimerSubscriber.clocked_time once
  /\ twice = once.
Proof.
  cbv zeta. repeat split.
  - simpl. destruct (TimerSubscriber.active self); lia.
  - unfold TimerSubscriber.touch at 1 3. simpl. f_equal.
    destruct (TimerSubscriber.active self); lia.
Qed.

(** C10: a new subscriber is active, has clocked 0 seconds and has no
    warnings; its three timestamps are the creation time; and the first
    [touch] credits all the time since the creation. *)
Theorem init_subscriber (now : Z) (member : Member.t)
        (timer : TimerSubscriber.timer_ref) (interface : Interface.t) :
  let s := TimerSubscriber.__init__ now member timer interface in
  TimerSubscriber.active s = true
  /\ TimerSubscriber.clocked_time s = 0
  /\ TimerSubscriber.warnings s = 0
  /\ TimerSubscriber.time_joined s = now
  /\ TimerSubscriber.last_updated s = now
  /\ TimerSubscriber.last_seen s = now
  /\ TimerSubscriber.id s = Member.id member
  /\ forall later,
       TimerSubscriber.clocked_time (TimerSubscriber.touch later s) = later - now.
Proof. cbv zeta. repeat split. Qed.

(** C3: [serialise] reads [self.time_subbed], which is not a slot of the
    class, so it raises [AttributeError] for every subscriber, and
    [deserialise], which binds the same name, returns no subscriber
    either: the round trip yields nothing to compare. *)
Theorem serialise_raises (self : TimerSubscriber.t) (now : Z) (data : list Z) :
  TimerSubscriber.in_slots "time_subbed" = false
  /\ TimerSubscriber.serialise self = Raise AttributeError
  /\ exists e,
       TimerSubscriber.deserialise now (TimerSubscriber.member self)
         (TimerSubscriber.timer self) (TimerSubscriber.interface self) data
       = Raise e.
Proof.
  repeat split.
  unfold TimerSubscriber.deserialise.
  repeat match goal with
         | |- context [getitem data ?k] =>
             destruct (getitem data k); simpl; [ | eexists; reflexivity ]
         end.
  eexists; reflexivity.
Qed.

(** ** Running methods *)

Section MonadFacts.

Context {S A B : Type}.

Lemma bind_get (k : S -> M S B) (s : S) : bind get k s = k s s.
Proof. unfold bind, get; simpl. destruct (k s s); reflexivity. Qed.

Lemma bind_modify (f : S -> S) (k : unit -> M S B) (s : S) :
  bind (modify f) k s = k tt (f s).
Proof. unfold bind, modify; simpl. destruct (k tt (f s)); reflexivity. Qed.

Lemma bind_ret (a : A) (k : A -> M S B) (s : S) : bind (ret a) k s = k a s.
Proof. unfold bind, ret; simpl. destruct (k a s); reflexivity. Qed.

Lemma bind_lift_ok (a : A) (k : A -> M S B) (s : S) :
  bind (lift (Ok a)) k s = k a s.
Proof. unfold bind, lift; simpl. destruct (k a s); reflexivity. Qed.

Lemma bind_lift_raise (e : exn) (k : A -> M S B) (s : S) :
  bind (lift (Raise e)) k s = Out s [] (Raise e).
Proof. reflexivity. Qed.

Lemma bind_raise (e : exn) (k : A -> M S B) (s : S) :
  bind (raise e) k s = Out s [] (Raise e).
Proof. reflexivity. Qed.

Lemma bind_await_ok (ev : event) (a : A) (k : A -> M S B) (s : S) :
  bind (await ev (Ok a)) k s
  = Out (final (k a s)) (ev :: trace (k a s)) (value (k a s)).
Proof. reflexivity. Qed.

Lemma bind_await_raise (ev : event) (e : exn) (k : A -> M S B) (s : S) :
  bind (await ev (Raise e)) k s = Out s [ev] (Raise e).
Proof. reflexivity. Qed.

(** What [bind] does with the outcome of its first part. *)
Lemma bind_after (m : M S A) (k : A -> M S B) (s s1 : S) (tr : list event) (a : A) :
  m s = Out s1 tr (Ok a) ->
  bind m k s = Out (final (k a s1)) (tr ++ trace (k a s1)) (value (k a s1)).
Proof. intros H. unfold bind. rewrite H. reflexivity. Qed.

Lemma bind_stops (m : M S A) (k : A -> M S B) (s s1 : S) (tr : list event) (e : exn) :
  m s = Out s1 tr (Raise e) ->
  bind m k s = Out s1 tr (Raise e).
Proof. intros H. unfold bind. rewrite H. reflexivity. Qed.

End MonadFacts.

Lemma outcome_eta {S A} (o : outcome S A) : Out (final o) (trace o) (value o) = o.
Proof. destruct o; reflexivity. Qed.

(** A swallowed call changes nothing and never raises. *)
Lemma swallowed_await {S} (ev : event) (answer : result unit) (s : S) :
  try_except (await ev answer) is_Exception (ret tt) s = Out s [ev] (Ok tt).
Proof. unfold try_except, await; simpl. destruct answer as [[]|e]; reflexivity. Qed.

Ltac run_method :=
  repeat first
    [ rewrite bind_get
    | rewrite bind_modify
    | rewrite bind_ret
    | rewrite bind_lift_ok
    | rewrite bind_lift_raise
    | rewrite bind_raise
    | rewrite bind_await_ok
    | rewrite bind_await_raise
    | rewrite swallowed_await
    | progress cbv beta ].

(** ** Attributes that a method leaves alone *)

Section Keeps.

Context {S X : Type} (f : S -> X).

Lemma keeps_ret {A} (a : A) : keeps f (ret a).
Proof. intros s; reflexivity. Qed.

Lemma keeps_raise {A} (e : exn) : keeps f (@raise S A e).
Proof. intros s; reflexivity. Qed.

Lemma keeps_lift {A} (r : result A) : keeps f (lift r).
Proof. intros s; reflexivity. Qed.

Lemma keeps_get : keeps f get.
Proof. intros s; reflexivity. Qed.

Lemma keeps_await {A} (ev : event) (r : result A) : keeps f (await ev r).
Proof. intros s; reflexivity. Qed.

Lemma keeps_modify (g : S -> S) : (forall s, f (g s) = f s) -> keeps f (modify g).
Proof. intros H s; apply H. Qed.

Lemma keeps_bind {A B} (m : M S A) (k : A -> M S B) :
  keeps f m -> (forall a, keeps f (k a)) -> keeps f (bind m k).
Proof.
  intros Hm Hk s. unfold bind. specialize (Hm s).
  destruct (m s) as [s1 tr [a|e]]; cbn [value final trace] in *.
  - rewrite (Hk a s1). exact Hm.
  - exact Hm.
Qed.

Lemma keeps_try_except {A} (body handler : M S A) (catches : exn -> bool) :
  keeps f body -> keeps f handler -> keeps f (try_except body catches handler).
Proof.
  intros Hb Hh s. unfold try_except. specialize (Hb s).
  destruct (body s) as [s1 tr [a|e]]; cbn [value final trace] in *.
  - exact Hb.
  - destruct (catches e); cbn [final]; [ rewrite (Hh s1) | ]; exact Hb.
Qed.

Lemma keeps_for_each {A} (l : list A) (body : A -> M S unit) :
  (forall x, keeps f (body x)) -> keeps f (for_each l body).
Proof.
  intros H. induction l as [|x tl IH]; cbn [for_each].
  - apply keeps_ret.
  - apply keeps_bind; [ apply H | intros _; exact IH ].
Qed.

End Keeps.

Ltac keeps_step :=
  first
    [ apply keeps_ret | apply keeps_raise | apply keeps_lift | apply keeps_get
    | apply keeps_await
    | apply keeps_modify; intros ?; reflexivity
    | apply keeps_for_each; intros ?
    | apply keeps_try_except
    | apply keeps_bind; [ | intros ? ]
    | match goal with
      | |- keeps _ (match ?x with _ => _ end) => destruct x
      | |- keeps _ (if ?x then _ else _) => destruct x
      end ].

(** ** Sequences *)

Lemma getitem_in_range {A} (l : list A) (j : Z) :
  0 <= j < Z.of_nat (List.length l) ->
  exists x, getitem l j = Ok x /\ nth_error l (Z.to_nat j) = Some x.
Proof.
  intros H. unfold getitem.
  replace (j <? 0) with false by (symmetry; apply Z.ltb_ge; lia).
  replace (0 <=? j) with true by (symmetry; apply Z.leb_le; lia).
  replace (j <? Z.of_nat (List.length l)) with true by (symmetry; apply Z.ltb_lt; lia).
  simpl.
  destruct (nth_error l (Z.to_nat j)) eqn:E.
  - eexists; split; reflexivity.
  - apply nth_error_None in E. lia.
Qed.

Lemma rmap_Forall2 {A B} (f : A -> result B) (l : list A) (ys : list B) :
  rmap f l = Ok ys -> Forall2 (fun x y => f x = Ok y) l ys.
Proof.
  revert ys. induction l as [|x tl IH]; intros ys H; simpl in H.
  - injection H as <-. constructor.
  - destruct (f x) as [y|e] eqn:Ex; simpl in H; [ | discriminate ].
    destruct (rmap f tl) as [ys'|e] eqn:Et; simpl in H; [ | discriminate ].
    injection H as <-. constructor; auto.
Qed.

Lemma rmap_total {A B} (f : A -> result B) (l : list A) :
  Forall (fun x => exists y, f x = Ok y) l -> exists ys, rmap f l = Ok ys.
Proof.
  induction 1 as [|x tl [y Hy] _ [ys Hys]]; simpl.
  - eexists; reflexivity.
  - rewrite Hy; simpl. rewrite Hys; simpl. eexists; reflexivity.
Qed.

(** ** Timer: stage changes *)

Section ChangeStage.

Variable w : World.
Variables (now stage_index : Z) (notify inactivity_check report_old : bool).
Variable self : Timer.t.

Lemma announce_outcome (current new : TimerStage.t) (s : Timer.t) :
  let text := Timer.announcement self current new report_old in
  Timer.announce w self current new report_old s
  = match w_send w (Timer.channel self) (Text text) with
    | Ok out_msg =>
        Out s [EvSend (Timer.channel self) (Text text);
               EvAddReaction out_msg [9989%N]] (Ok tt)
    | Raise e => Out s [EvSend (Timer.channel self) (Text text)] (Raise e)
    end.
Proof.
  unfold Timer.announce. cbv zeta.
  destruct (w_send w (Timer.channel self)
              (Text (Timer.announcement self current new report_old))) as [m|e];
    run_method; reflexivity.
Qed.

(** With a subscriber in the dict, the first thing [change_stage] does is to
    call [touch] on a key of the dict. *)
Lemma change_stage_subscribed :
  Timer.subscribed self <> [] ->
  Timer.change_stage w now stage_index notify inactivity_check report_old self
  = Out self [] (Raise AttributeError).
Proof.
  intros H. unfold Timer.change_stage, Timer.iter_subscribed. run_method.
  destruct (Timer.subscribed self) as [|kv rest]; [congruence|].
  cbn [map for_each]. unfold Timer.int_touch. run_method. reflexivity.
Qed.

(** Without subscribers, on a timer whose current stage exists. *)
Lemma change_stage_unsubscribed (l : list TimerStage.t) (current new : TimerStage.t) :
  Timer.subscribed self = [] ->
  Timer.stages self = Some l ->
  getitem l (Timer.current_stage self) = Ok current ->
  getitem l (stage_index mod Z.of_nat (List.length l)) = Ok new ->
  Timer.change_stage w now stage_index notify inactivity_check report_old self
  = let a := if notify
             then Timer.announce w self current new report_old self
             else Out self [] (Ok tt) in
    match value a with
    | Ok _ => Out (entered now (stage_index mod Z.of_nat (List.length l)) new self)
                  (trace a) (Ok tt)
    | Raise e => Out self (trace a) (Raise e)
    end.
Proof.
  intros Hs Hst Hc Hn.
  assert (Hlen : Z.of_nat (List.length l) <> 0).
  { destruct l; [ | simpl; lia ]. exfalso. revert Hc. unfold getitem.
    cbn [List.length Z.of_nat].
    match goal with |- context [?a && ?b] => destruct (a && b) eqn:E end;
      [ | discriminate ].
    apply andb_true_iff in E. destruct E as [E1 E2].
    apply Z.leb_le in E1. apply Z.ltb_lt in E2. lia. }
  unfold Timer.change_stage, Timer.iter_subscribed. run_method.
  rewrite Hs. cbn [map for_each]. run_method.
  rewrite Hst. cbn [Timer.len Timer.subscript]. run_method.
  unfold py_mod. rewrite (proj2 (Z.eqb_neq _ _) Hlen). run_method.
  rewrite Hc. run_method. rewrite Hn. run_method.
  destruct notify.
  - pose proof (announce_outcome current new self) as Ha. cbv zeta in Ha.
    destruct (w_send w (Timer.channel self)
                (Text (Timer.announcement self current new report_old))) as [m|e].
    + erewrite bind_after by exact Ha. rewrite Ha. run_method.
      unfold modify. cbn [value final trace]. rewrite app_nil_r. reflexivity.
    + erewrite bind_stops by exact Ha. rewrite Ha. reflexivity.
  - run_method. reflexivity.
Qed.

End ChangeStage.

(** C1: on a timer that has subscribers, [change_stage] iterates the dict
    itself, that is its keys, and calls [touch] on the first user id: it
    raises [AttributeError] before anything else happens.  No subscriber is
    touched, no notification is sent and the stage is not changed. *)
Theorem change_stage_fails_with_subscribers
        (w : World) (now stage_index : Z)
        (notify inactivity_check report_old : bool) (self : Timer.t) :
  Timer.subscribed self <> [] ->
  let o := Timer.change_stage w now stage_index notify inactivity_check
                              report_old self in
  value o = Raise AttributeError
  /\ trace o = []
  /\ final o = self
  /\ Timer.values (final o) = Timer.values self.
Proof.
  intros H o. subst o. rewrite change_stage_subscribed by exact H.
  repeat split.
Qed.

Lemma change_stage_fails_with_subscribers_witness :
  Timer.subscribed Sample.study_subscribed <> []
  /\ let o := Timer.change_stage Sample.w_ok 2500 1 true true true
                                 Sample.study_subscribed in
     value o = Raise AttributeError
     /\ trace o = []
     /\ final o = Sample.study_subscribed
     /\ Timer.values (final o) = Timer.values Sample.study_subscribed.
Proof.
  split; [ discriminate | ].
  apply (@change_stage_fails_with_subscribers
           Sample.w_ok 2500 1 true true true Sample.study_subscribed).
  discriminate.
Defined.

(** C2: on a timer with a non-empty stage list, a [change_stage] that
    completes leaves [current_stage] equal to the requested index modulo the
    number of stages, which lies between 0 and that number, leaves
    [remaining] equal to 60 times the duration of that stage, and leaves
    [current_stage_start] equal to the time of the call. *)
Theorem change_stage_index
        (w : World) (now stage_index : Z)
        (notify inactivity_check report_old : bool) (self : Timer.t)
        (l : list TimerStage.t) :
  Timer.stages self = Some l ->
  l <> [] ->
  let o := Timer.change_stage w now stage_index notify inactivity_check
                              report_old self in
  let n := Z.of_nat (List.length l) in
  value o = Ok tt ->
  Timer.current_stage (final o) = stage_index mod n
  /\ 0 <= Timer.current_stage (final o) < n
  /\ Timer.current_stage_start (final o) = Some now
  /\ exists stage,
       getitem l (Timer.current_stage (final o)) = Ok stage
       /\ Timer.remaining (final o) = Some (TimerStage.duration stage * 60).
Proof.
  intros Hst Hne o n Hv.
  assert (Hn : 0 < n) by (subst n; destruct l; [congruence | simpl; lia]).
  assert (Hr : 0 <= stage_index mod n < n) by (apply Z.mod_pos_bound; lia).
  destruct (@getitem_in_range _ l (stage_index mod n) Hr) as [new [Hnew _]].
  destruct (Timer.subscribed self) as [|kv rest] eqn:Hs.
  2:{ subst o. rewrite change_stage_subscribed in Hv by (rewrite Hs; discriminate).
      discriminate. }
  destruct (getitem l (Timer.current_stage self)) as [current|e] eqn:Hc.
  2:{ subst o. revert Hv. unfold Timer.change_stage, Timer.iter_subscribed.
      run_method. rewrite Hs. cbn [map for_each]. run_method.
      rewrite Hst. cbn [Timer.len Timer.subscript]. run_method.
      unfold py_mod. fold n. rewrite (proj2 (Z.eqb_neq _ _)) by lia.
      run_method. rewrite Hc. run_method. discriminate. }
  subst o.
  rewrite (@change_stage_unsubscribed w now stage_index notify inactivity_check
             report_old self l current new Hs Hst Hc Hnew) in *.
  cbv zeta in *. fold n in Hv |- *.
  destruct (value (if notify
                   then Timer.announce w self current new report_old self
                   else Out self [] (Ok tt))) as [u|e]; [ | discriminate ].
  cbn [final]. unfold entered. cbn.
  repeat split; try lia. exists new. split; [ exact Hnew | reflexivity ].
Qed.

Lemma change_stage_index_witness :
  let l := [Sample.work; Sample.short_break; Sample.long_break] in
  let o := Timer.change_stage Sample.w_ok 2500 (-1) true true true
                              Sample.study_running in
  Timer.stages Sample.study_running = Some l
  /\ l <> []
  /\ value o = Ok tt
  /\ Timer.current_stage (final o) = 2
  /\ Timer.remaining (final o) = Some 900.
Proof.
  cbv zeta.
  assert (Hst : Timer.stages Sample.study_running
                = Some [Sample.work; Sample.short_break; Sample.long_break])
    by reflexivity.
  assert (Hne : [Sample.work; Sample.short_break; Sample.long_break] <> [])
    by discriminate.
  assert (Hv : value (Timer.change_stage Sample.w_ok 2500 (-1) true true true
                                         Sample.study_running) = Ok tt)
    by reflexivity.
  destruct (@change_stage_index Sample.w_ok 2500 (-1) true true true
              Sample.study_running _ Hst Hne Hv) as [Hi [_ [_ [stage [Hg Hrem]]]]].
  split; [ exact Hst | ]. split; [ exact Hne | ]. split; [ exact Hv | ]. split.
  - rewrite Hi. reflexivity.
  - rewrite Hrem. rewrite Hi in Hg. vm_compute in Hg. injection Hg as <-. reflexivity.
Defined.

(** The two indices of the example: with three stages, index 3 wraps to
    stage 0 and index -1 to stage 2. *)
Example change_stage_wraps :
  Timer.current_stage
    (final (Timer.change_stage Sample.w_ok 2500 3 true true true Sample.study_running))
  = 0
  /\ Timer.current_stage
       (final (Timer.change_stage Sample.w_ok 2500 (-1) true true true
                                  Sample.study_running))
     = 2.
Proof. split; reflexivity. Qed.

(** A stage change completes on a timer without subscribers whose current
    stage exists, unless the notification cannot be sent. *)
Lemma change_stage_completes
      (w : World) (now stage_index : Z) (inactivity_check report_old : bool)
      (self : Timer.t) (l : list TimerStage.t) (current : TimerStage.t) :
  Timer.subscribed self = [] ->
  Timer.stages self = Some l ->
  getitem l (Timer.current_stage self) = Ok current ->
  value (Timer.change_stage w now stage_index false inactivity_check report_old self)
  = Ok tt
  /\ ((forall c, exists m, w_send w (Timer.channel self) c = Ok m) ->
      value (Timer.change_stage w now stage_index true inactivity_check report_old self)
      = Ok tt).
Proof.
  intros Hs Hst Hc.
  assert (Hn : 0 < Z.of_nat (List.length l)).
  { destruct l; [ | simpl; lia ]. exfalso. revert Hc. unfold getitem.
    cbn [List.length Z.of_nat].
    match goal with |- context [?a && ?b] => destruct (a && b) eqn:E end;
      [ | discriminate ].
    apply andb_true_iff in E. destruct E as [E1 E2].
    apply Z.leb_le in E1. apply Z.ltb_lt in E2. lia. }
  assert (Hr : 0 <= stage_index mod Z.of_nat (List.length l) < Z.of_nat (List.length l))
    by (apply Z.mod_pos_bound; lia).
  destruct (@getitem_in_range _ l _ Hr) as [new [Hnew _]].
  split.
  - rewrite (@change_stage_unsubscribed w now stage_index false inactivity_check
               report_old self l current new Hs Hst Hc Hnew).
    reflexivity.
  - intros Hw.
    rewrite (@change_stage_unsubscribed w now stage_index true inactivity_check
               report_old self l current new Hs Hst Hc Hnew).
    cbv zeta. rewrite announce_outcome. cbv zeta.
    destruct (Hw (Text (Timer.announcement self current new report_old))) as [m Hm].
    rewrite Hm. reflexivity.
Qed.

(** ** Timer: setup *)

(** C5, as the code has it: [setup] with an empty or a missing stage list
    raises ([IndexError] or [TypeError]) at [stages[0]], after it has
    overwritten [state], [stages], [current_stage] and [start_time]; what
    comes later in the method is not run, so [remaining],
    [current_stage_start] and the rest of the timer keep their values. *)
Theorem setup_rejects_empty (now : Z) (stages : option (list TimerStage.t))
        (self : Timer.t) :
  Timer.truthy stages = false ->
  let o := Timer.setup now stages self in
  value o = Raise (match stages with None => TypeError | Some _ => IndexError end)
  /\ trace o = []
  /\ Timer.remaining (final o) = Timer.remaining self
  /\ Timer.current_stage_start (final o) = Timer.current_stage_start self
  /\ Timer.subscribed (final o) = Timer.subscribed self
  /\ Timer.last_clockupdate (final o) = Timer.last_clockupdate self
  /\ Timer.state (final o) = STOPPED
  /\ Timer.stages (final o) = stages
  /\ Timer.current_stage (final o) = 0
  /\ Timer.start_time (final o) = Some now.
Proof.
  intros H. destruct stages as [[|st tl]|]; try discriminate H;
    cbv zeta; unfold Timer.setup; run_method; repeat split.
Qed.

Lemma setup_rejects_empty_witness :
  Timer.truthy (Some []) = false
  /\ let o := Timer.setup 3000 (Some []) Sample.study_running in
     value o = Raise IndexError
     /\ Timer.remaining (final o) = Some 1500
     /\ Timer.current_stage_start (final o) = Some 1000
     /\ Timer.state (final o) = STOPPED
     /\ Timer.stages (final o) = Some []
     /\ Timer.start_time (final o) = Some 3000.
Proof.
  split; [ reflexivity | ].
  destruct (@setup_rejects_empty 3000 (Some []) Sample.study_running eq_refl)
    as [Hv [_ [Hr [Hc [_ [_ [Hs [Hst [_ Ht]]]]]]]]].
  cbv zeta.
  split; [ exact Hv | ]. split; [ exact Hr | ]. split; [ exact Hc | ].
  split; [ exact Hs | ]. split; [ exact Hst | exact Ht ].
Defined.

(** C5, as the claim has it, fails: [setup] with an empty stage list on a
    running timer raises, and the timer is left stopped, without stages and
    with a new session start. *)
Lemma setup_empty_mutates :
  let before := Sample.study_running in
  let o := Timer.setup 3000 (Some []) before in
  value o = Raise IndexError
  /\ Timer.state before = RUNNING /\ Timer.state (final o) = STOPPED
  /\ Timer.stages before
     = Some [Sample.work; Sample.short_break; Sample.long_break]
  /\ Timer.stages (final o) = Some []
  /\ Timer.start_time before = Some 1000
  /\ Timer.start_time (final o) = Some 3000
  /\ final o <> before.
Proof.
  cbv zeta. repeat split. intros H.
  apply (f_equal Timer.state) in H. discriminate H.
Qed.

(** With a stage list that is not empty, [setup] completes. *)
Lemma setup_configures (now : Z) (stage : TimerStage.t) (rest : list TimerStage.t)
      (self : Timer.t) :
  let o := Timer.setup now (Some (stage :: rest)) self in
  value o = Ok tt
  /\ Timer.state (final o) = STOPPED
  /\ Timer.stages (final o) = Some (stage :: rest)
  /\ Timer.current_stage (final o) = 0
  /\ Timer.start_time (final o) = Some now
  /\ Timer.current_stage_start (final o) = Some now
  /\ Timer.remaining (final o) = Some (TimerStage.duration stage).
Proof. cbv zeta. unfold Timer.setup. run_method. repeat split. Qed.

(** ** Timer: the clock channel *)

Lemma update_clock_channel_frame (w : World) (now : Z) (self : Timer.t) :
  final (Timer.update_clock_channel w now self) = self.
Proof.
  unfold Timer.update_clock_channel. run_method.
  destruct (Timer.clock_channel self) as [c|]; [ | reflexivity ].
  destruct (now - Timer.last_clockupdate self <? Timer.clock_period); [ reflexivity | ].
  destruct (Timer.subscript (Timer.stages self) (Timer.current_stage self));
    run_method; [ | reflexivity ].
  destruct (Timer.pretty_remaining self); run_method; reflexivity.
Qed.

(** No method of [Timer] assigns [last_clockupdate]. *)
Lemma last_clockupdate_kept (w : World) (now : Z) :
  (forall stages, keeps Timer.last_clockupdate (Timer.setup now stages))
  /\ keeps Timer.last_clockupdate (Timer.update_clock_channel w now)
  /\ (forall i notify check report,
        keeps Timer.last_clockupdate (Timer.change_stage w now i notify check report))
  /\ keeps Timer.last_clockupdate (Timer.start w now)
  /\ (forall frac, keeps Timer.last_clockupdate (Timer.runloop_turn w now frac)).
Proof.
  assert (Hu : keeps Timer.last_clockupdate (Timer.update_clock_channel w now)).
  { unfold Timer.update_clock_channel. repeat keeps_step. }
  assert (Hc : forall i notify check report,
             keeps Timer.last_clockupdate
                   (Timer.change_stage w now i notify check report)).
  { intros. unfold Timer.change_stage, Timer.announce. repeat keeps_step. }
  repeat split.
  - intros stages. unfold Timer.setup. repeat keeps_step.
  - exact Hu.
  - exact Hc.
  - unfold Timer.start. repeat keeps_step; try apply Hc.
  - intros frac. unfold Timer.runloop_turn. repeat keeps_step; try apply Hc; try apply Hu.
Qed.

(** The refresh is skipped when the clock is within [clock_period] of
    [last_clockupdate]. *)
Lemma update_clock_channel_skips (w : World) (now : Z) (self : Timer.t) :
  now - Timer.last_clockupdate self < Timer.clock_period ->
  Timer.update_clock_channel w now self = Out self [] (Ok tt).
Proof.
  intros H. unfold Timer.update_clock_channel. run_method.
  destruct (Timer.clock_channel self) as [c|]; [ | reflexivity ].
  rewrite (proj2 (Z.ltb_lt _ _) H). reflexivity.
Qed.

(** C4: [update_clock_channel] compares the clock with [last_clockupdate]
    but never assigns it, so once [clock_period] seconds have passed since
    that value every call edits the channel name, however close two calls
    are: the edits of one timer are not kept 5 seconds apart. *)
Theorem clock_channel_edited_every_call
        (w : World) (self : Timer.t) (clock : handle) (now1 now2 : Z)
        (stage : TimerStage.t) (remaining : str) :
  Timer.clock_channel self = Some clock ->
  Timer.subscript (Timer.stages self) (Timer.current_stage self) = Ok stage ->
  Timer.pretty_remaining self = Ok remaining ->
  Timer.clock_period <= now1 - Timer.last_clockupdate self ->
  now1 <= now2 ->
  let o1 := Timer.update_clock_channel w now1 self in
  let o2 := Timer.update_clock_channel w now2 (final o1) in
  let new_name := TimerStage.name stage ++ lit " - " ++ remaining in
  trace o1 = [EvChannelEdit clock new_name]
  /\ trace o2 = [EvChannelEdit clock new_name]
  /\ Timer.last_clockupdate (final o1) = Timer.last_clockupdate self
  /\ Timer.last_clockupdate (final o2) = Timer.last_clockupdate self.
Proof.
  intros Hc Hs Hr H1 H2. cbv zeta.
  rewrite !update_clock_channel_frame.
  assert (E : forall now, now1 <= now ->
                trace (Timer.update_clock_channel w now self)
                = [EvChannelEdit clock (TimerStage.name stage ++ lit " - " ++ remaining)]).
  { intros now Hn. unfold Timer.update_clock_channel. run_method.
    rewrite Hc. rewrite (proj2 (Z.ltb_ge _ _)) by lia.
    rewrite Hs. run_method. rewrite Hr. run_method. reflexivity. }
  repeat split; apply E; lia.
Qed.

Lemma clock_channel_edited_every_call_witness :
  let self := Sample.study_running in
  let new_name := lit "Work - 00:25:00" in
  Timer.clock_channel self = Some 2
  /\ Timer.last_clockupdate self = 0
  /\ trace (Timer.update_clock_channel Sample.w_ok 1000 self)
     = [EvChannelEdit 2 new_name]
  /\ trace (Timer.update_clock_channel Sample.w_ok 1001
              (final (Timer.update_clock_channel Sample.w_ok 1000 self)))
     = [EvChannelEdit 2 new_name].
Proof.
  cbv zeta.
  assert (H1 : Timer.clock_period <= 1000 - Timer.last_clockupdate Sample.study_running)
    by (vm_compute; discriminate).
  assert (H2 : 1000 <= 1001) by lia.
  destruct (@clock_channel_edited_every_call Sample.w_ok Sample.study_running 2
              1000 1001 Sample.work (lit "00:25:00") eq_refl eq_refl eq_refl H1 H2)
    as [E1 [E2 _]].
  split; [ reflexivity | ]. split; [ reflexivity | ].
  split; [ exact E1 | exact E2 ].
Defined.

(** ** TimerChannel: the status message *)

Section Update.

Variable w : World.
Variables (now : Z) (self : TimerChannel.t).
Variables (first : str) (others : list str).

Let messages : list str := first :: others.
Let embed : Embed.t := TimerChannel.status_embed now messages.
Let here : handle := TimerChannel.channel self.

Hypothesis rendered :
  rmap Timer.pretty_pinstatus (TimerChannel.timers self) = Ok messages.

Lemma update_edits (m : handle) :
  TimerChannel.msg self = Some m ->
  TimerChannel.update w now self = Out self [EvMessageEdit m embed] (Ok tt).
Proof.
  intros Hm. unfold TimerChannel.update. run_method.
  rewrite rendered. subst messages. run_method. rewrite Hm. run_method.
  reflexivity.
Qed.

Lemma update_creates (m : handle) :
  TimerChannel.msg self = None ->
  w_send w here (WithEmbed embed) = Ok m ->
  TimerChannel.update w now self
  = Out (TimerChannel.set_msg (Some m) self)
        [EvSend here (WithEmbed embed); EvMessagePin m] (Ok tt).
Proof.
  intros Hm Hs. unfold TimerChannel.update. run_method.
  rewrite rendered. subst messages. run_method. rewrite Hm.
  fold embed here. rewrite Hs.
  unfold bind, try_except, await, modify, get, ret, TimerChannel.pin. cbn.
  destruct (w_message_pin w m) as [[]|e]; reflexivity.
Qed.

Lemma update_forbidden (m : handle) :
  TimerChannel.msg self = None ->
  w_send w here (WithEmbed embed) = Raise Forbidden ->
  w_send w here (Text TimerChannel.no_embed_notice) = Ok m ->
  TimerChannel.update w now self
  = Out (TimerChannel.set_timers
           (map (Timer.set_state STOPPED) (TimerChannel.timers self)) self)
        [EvSend here (WithEmbed embed); EvSend here (Text TimerChannel.no_embed_notice)]
        (Ok tt).
Proof.
  intros Hm Hs Hn. unfold TimerChannel.update. run_method.
  rewrite rendered. subst messages. run_method. rewrite Hm.
  fold embed here. rewrite Hs, Hn.
  unfold bind, try_except, await, modify, get, ret, TimerChannel.pin,
    TimerChannel.stop_all. cbn. rewrite Hm. reflexivity.
Qed.

Lemma update_notice_fails (e : exn) :
  TimerChannel.msg self = None ->
  w_send w here (WithEmbed embed) = Raise Forbidden ->
  w_send w here (Text TimerChannel.no_embed_notice) = Raise e ->
  TimerChannel.update w now self
  = Out self
        [EvSend here (WithEmbed embed); EvSend here (Text TimerChannel.no_embed_notice)]
        (Raise e).
Proof.
  intros Hm Hs Hn. unfold TimerChannel.update. run_method.
  rewrite rendered. subst messages. run_method. rewrite Hm.
  fold embed here. rewrite Hs, Hn.
  unfold bind, try_except, await, modify, get, ret. cbn. reflexivity.
Qed.

Lemma update_send_fails (e : exn) :
  TimerChannel.msg self = None ->
  w_send w here (WithEmbed embed) = Raise e ->
  e <> Forbidden ->
  TimerChannel.update w now self
  = Out self [EvSend here (WithEmbed embed)] (Raise e).
Proof.
  intros Hm Hs He. unfold TimerChannel.update. run_method.
  rewrite rendered. subst messages. run_method. rewrite Hm.
  fold embed here. rewrite Hs.
  unfold bind, try_except, await, modify, get, ret. cbn.
  destruct e; try congruence; reflexivity.
Qed.

End Update.

(** A timer that is stopped, or that has a current stage and a remaining
    time, has a status. *)
Lemma pretty_pinstatus_total (t : Timer.t) :
  Timer.state t = STOPPED
  \/ (exists l current r,
        Timer.stages t = Some l
        /\ getitem l (Timer.current_stage t) = Ok current
        /\ Timer.remaining t = Some r) ->
  exists s, Timer.pretty_pinstatus t = Ok s.
Proof.
  intros [H | [l [current [r [Hl [Hc Hr]]]]]]; unfold Timer.pretty_pinstatus.
  - rewrite H. eexists; reflexivity.
  - destruct (Timer.state t); try (eexists; reflexivity);
      rewrite Hl; cbn [Timer.subscript]; rewrite Hc; cbn [rbind];
      unfold Timer.pretty_remaining; rewrite Hr; cbn [rbind];
      (destruct l as [|st tl];
       [ exfalso; revert Hc; unfold getitem; cbn [List.length Z.of_nat];
         match goal with |- context [?a && ?b] => destruct (a && b) eqn:E end;
         [ apply andb_true_iff in E; destruct E as [E1 E2];
           apply Z.leb_le in E1; apply Z.ltb_lt in E2; lia
         | discriminate ]
       | cbn [map py_max rbind]; eexists; reflexivity ]).
Qed.

(** C9: when every member timer renders and there is at least one, [update]
    on a channel without status message sends exactly one embed, whose
    description is the statuses of all the timers, in the order of the list,
    joined by a blank line, edits nothing, and keeps the message that the
    channel returns; on a channel that has a status message it makes one
    call, the edit of that message with the same embed, and sends nothing. *)
Theorem update_creates_or_edits
        (w : World) (now : Z) (self : TimerChannel.t) (messages : list str) :
  TimerChannel.timers self <> [] ->
  rmap Timer.pretty_pinstatus (TimerChannel.timers self) = Ok messages ->
  let o := TimerChannel.update w now self in
  let embed := TimerChannel.status_embed now messages in
  let create := EvSend (TimerChannel.channel self) (WithEmbed embed) in
  Forall2 (fun t s => Timer.pretty_pinstatus t = Ok s)
          (TimerChannel.timers self) messages
  /\ Embed.description embed = join [10%N; 10%N] messages
  /\ match TimerChannel.msg self with
     | None =>
         embeds_sent (trace o) = [create]
         /\ hd_error (trace o) = Some create
         /\ message_edits (trace o) = []
         /\ (forall m, w_send w (TimerChannel.channel self) (WithEmbed embed) = Ok m ->
                       TimerChannel.msg (final o) = Some m /\ value o = Ok tt)
     | Some m =>
         trace o = [EvMessageEdit m embed]
         /\ embeds_sent (trace o) = []
         /\ TimerChannel.msg (final o) = Some m
         /\ value o = Ok tt
     end.
Proof.
  intros Hne Hr. cbv zeta.
  split; [ apply rmap_Forall2; exact Hr | ].
  split; [ reflexivity | ].
  destruct messages as [|first others].
  { destruct (TimerChannel.timers self) as [|t tl]; [ congruence | ].
    apply rmap_Forall2 in Hr. inversion Hr. }
  destruct (TimerChannel.msg self) as [m|] eqn:Hm.
  - rewrite (update_edits w now self Hr Hm). repeat split. exact Hm.
  - destruct (w_send w (TimerChannel.channel self)
                (WithEmbed (TimerChannel.status_embed now (first :: others))))
      as [m|e] eqn:Hs.
    + rewrite (update_creates w now self Hr Hm Hs). cbn [trace final value].
      split; [ reflexivity | ]. split; [ reflexivity | ]. split; [ reflexivity | ].
      intros m' Hm'. injection Hm' as <-. split; reflexivity.
    + assert (He : e = Forbidden \/ e <> Forbidden)
        by (destruct e; (left; reflexivity) || (right; discriminate)).
      destruct He as [-> | He].
      * destruct (w_send w (TimerChannel.channel self)
                    (Text TimerChannel.no_embed_notice)) as [m|e'] eqn:Hn.
        -- rewrite (update_forbidden w now self Hr Hm Hs Hn). cbn [trace final value].
           split; [ reflexivity | ]. split; [ reflexivity | ].
           split; [ reflexivity | ].
           intros m' Hm'. discriminate Hm'.
        -- rewrite (update_notice_fails w now self Hr Hm Hs Hn).
           cbn [trace final value].
           split; [ reflexivity | ]. split; [ reflexivity | ].
           split; [ reflexivity | ].
           intros m' Hm'. discriminate Hm'.
      * rewrite (update_send_fails w now self Hr Hm Hs He). cbn [trace final value].
        split; [ reflexivity | ]. split; [ reflexivity | ]. split; [ reflexivity | ].
        intros m' Hm'. discriminate Hm'.
Qed.

Lemma update_creates_or_edits_witness :
  let o := TimerChannel.update Sample.w_ok 5000 Sample.board in
  TimerChannel.timers Sample.board <> []
  /\ (exists a b,
        Timer.pretty_pinstatus Sample.study_running = Ok a
        /\ Timer.pretty_pinstatus Sample.idle = Ok b
        /\ embeds_sent (trace o)
           = [EvSend 1 (WithEmbed (TimerChannel.status_embed 5000 [a; b]))]
        /\ Embed.description (TimerChannel.status_embed 5000 [a; b])
           = a ++ [10%N; 10%N] ++ b)
  /\ message_edits (trace o) = []
  /\ TimerChannel.msg (final o) = Some 77.
Proof.
  cbv zeta.
  assert (Hne : TimerChannel.timers Sample.board <> []) by discriminate.
  destruct (Timer.pretty_pinstatus Sample.study_running) as [a|] eqn:Ha;
    [ | discriminate Ha ].
  destruct (Timer.pretty_pinstatus Sample.idle) as [b|] eqn:Hb;
    [ | discriminate Hb ].
  assert (Hr : rmap Timer.pretty_pinstatus (TimerChannel.timers Sample.board)
               = Ok [a; b]).
  { cbn [rmap TimerChannel.timers Sample.board]. rewrite Ha, Hb. reflexivity. }
  destruct (@update_creates_or_edits Sample.w_ok 5000 Sample.board [a; b] Hne Hr)
    as [_ [_ H]].
  cbn [TimerChannel.msg Sample.board] in H.
  destruct H as [H1 [_ [H3 H4]]].
  split; [ exact Hne | ]. split.
  - exists a, b. repeat split. exact H1.
  - split; [ exact H3 | ]. apply (H4 77). reflexivity.
Defined.

(** C6, as the code has it: when there is no status message, the send of
    the embed is refused with [Forbidden] and the channel accepts the plain
    notice, [update] makes these two sends, stops every member timer,
    leaves [msg] unset and returns without raising (the [AttributeError] of
    [None.pin()] is swallowed). *)
Theorem update_forbidden_stops_timers
        (w : World) (now : Z) (self : TimerChannel.t) (messages : list str)
        (notice : handle) :
  TimerChannel.msg self = None ->
  TimerChannel.timers self <> [] ->
  rmap Timer.pretty_pinstatus (TimerChannel.timers self) = Ok messages ->
  w_send w (TimerChannel.channel self)
         (WithEmbed (TimerChannel.status_embed now messages)) = Raise Forbidden ->
  w_send w (TimerChannel.channel self) (Text TimerChannel.no_embed_notice)
  = Ok notice ->
  let o := TimerChannel.update w now self in
  value o = Ok tt
  /\ trace o
     = [EvSend (TimerChannel.channel self)
               (WithEmbed (TimerChannel.status_embed now messages));
        EvSend (TimerChannel.channel self) (Text TimerChannel.no_embed_notice)]
  /\ Forall (fun t => Timer.state t = STOPPED) (TimerChannel.timers (final o))
  /\ TimerChannel.timers (final o)
     = map (Timer.set_state STOPPED) (TimerChannel.timers self)
  /\ List.length (TimerChannel.timers (final o))
     = List.length (TimerChannel.timers self)
  /\ TimerChannel.msg (final o) = None.
Proof.
  intros Hm Hne Hr Hs Hn. cbv zeta.
  destruct messages as [|first others].
  { destruct (TimerChannel.timers self) as [|t tl]; [ congruence | ].
    apply rmap_Forall2 in Hr. inversion Hr. }
  rewrite (update_forbidden w now self Hr Hm Hs Hn). cbn [value trace final].
  split; [ reflexivity | ]. split; [ reflexivity | ].
  cbn [TimerChannel.set_timers TimerChannel.timers TimerChannel.msg].
  split; [ | split; [ reflexivity | split; [ apply length_map | exact Hm ] ] ].
  apply Forall_forall. intros t Ht. apply in_map_iff in Ht.
  destruct Ht as [t0 [<- _]]. reflexivity.
Qed.

Lemma update_forbidden_stops_timers_witness :
  let o := TimerChannel.update Sample.w_no_embed 5000 Sample.board in
  TimerChannel.msg Sample.board = None
  /\ Timer.state Sample.study_running = RUNNING
  /\ value o = Ok tt
  /\ Forall (fun t => Timer.state t = STOPPED) (TimerChannel.timers (final o))
  /\ List.length (TimerChannel.timers (final o)) = 2%nat.
Proof.
  cbv zeta.
  assert (Hne : TimerChannel.timers Sample.board <> []) by discriminate.
  destruct (rmap Timer.pretty_pinstatus (TimerChannel.timers Sample.board))
    as [messages|] eqn:Hr; [ | discriminate Hr ].
  destruct (@update_forbidden_stops_timers Sample.w_no_embed 5000 Sample.board
              messages 78 eq_refl Hne Hr eq_refl eq_refl)
    as [Hv [_ [Hall [_ [Hlen _]]]]].
  split; [ reflexivity | ]. split; [ reflexivity | ].
  split; [ exact Hv | ]. split; [ exact Hall | exact Hlen ].
Defined.

(** C6, as the claim has it, fails where the bot may not send at all: the
    embed is refused with [Forbidden], the notice is refused as well, that
    exception leaves [update], and the running timer keeps running. *)
Lemma update_forbidden_propagates :
  let o := TimerChannel.update Sample.w_no_send 5000 Sample.board in
  TimerChannel.msg Sample.board = None
  /\ (forall e, w_send Sample.w_no_send (TimerChannel.channel Sample.board)
                       (WithEmbed e) = Raise Forbidden)
  /\ value o = Raise Forbidden
  /\ hd_error (TimerChannel.timers (final o)) = Some Sample.study_running
  /\ Timer.state Sample.study_running = RUNNING
  /\ ~ Forall (fun t => Timer.state t = STOPPED) (TimerChannel.timers (final o)).
Proof.
  cbv zeta.
  assert (E : TimerChannel.update Sample.w_no_send 5000 Sample.board
              = Out Sample.board
                    (trace (TimerChannel.update Sample.w_no_send 5000 Sample.board))
                    (Raise Forbidden))
    by (vm_compute; reflexivity).
  rewrite E. cbn [value final].
  split; [ reflexivity | ]. split; [ reflexivity | ].
  split; [ reflexivity | ]. split; [ reflexivity | ].
  split; [ vm_compute; reflexivity | ].
  intros H. inversion H as [|t tl Hstate Hrest Heq]. vm_compute in Hstate.
  discriminate Hstate.
Qed.

(** ** Timer: start and the tasks on the event loop *)

(** [change_stage] hands nothing to [ensure_future]. *)
Lemma change_stage_schedules_nothing
      (w : World) (now stage_index : Z) (notify inactivity_check report_old : bool)
      (self : Timer.t) :
  EventLoop.scheduled
    (trace (Timer.change_stage w now stage_index notify inactivity_check
                               report_old self)) = [].
Proof.
  unfold Timer.change_stage, Timer.iter_subscribed. run_method.
  destruct (Timer.subscribed self) as [|kv rest]; cbn [map for_each];
    unfold Timer.int_touch; run_method; [ | reflexivity ].
  destruct (Timer.stages self) as [l|]; cbn [Timer.len Timer.subscript];
    run_method; [ | reflexivity ].
  unfold py_mod. destruct (Z.of_nat (List.length l) =? 0); run_method;
    [ reflexivity | ].
  destruct (getitem l (Timer.current_stage self)) as [current|e]; run_method;
    [ | reflexivity ].
  destruct (getitem l (stage_index mod Z.of_nat (List.length l))) as [new|e];
    run_method; [ | reflexivity ].
  destruct notify.
  - pose proof (announce_outcome w report_old self current new self) as Ha.
    cbv zeta in Ha.
    destruct (w_send w (Timer.channel self)
                (Text (Timer.announcement self current new report_old))) as [m|e].
    + erewrite bind_after by exact Ha. run_method. reflexivity.
    + erewrite bind_stops by exact Ha. reflexivity.
  - run_method. reflexivity.
Qed.

Lemma start_outcome (w : World) (now : Z) (self : Timer.t) :
  let c := Timer.change_stage w now 0 true true false self in
  Timer.start w now self
  = match value c with
    | Ok _ => Out (Timer.set_state RUNNING (final c))
                  (trace c ++ [EvEnsureFuture Runloop]) (Ok tt)
    | Raise e => Out (final c) (trace c) (Raise e)
    end.
Proof.
  cbv zeta. unfold Timer.start.
  destruct (Timer.change_stage w now 0 true true false self) as [s tr [u|e]] eqn:Hc.
  - erewrite bind_after by exact Hc. run_method. reflexivity.
  - erewrite bind_stops by exact Hc. reflexivity.
Qed.

(** A loop returns at the first test of its condition that finds the timer
    not running, without a call and without a change. *)
Lemma runloop_turn_exits (w : World) (now : Z) (frac : bool) (self : Timer.t) :
  Timer.state self <> RUNNING ->
  Timer.runloop_turn w now frac self = Out self [] (Ok false).
Proof.
  intros H. unfold Timer.runloop_turn. run_method.
  destruct (Timer.state self); try congruence; reflexivity.
Qed.

(** Once the timer is not running, every task is done after one round. *)
Lemma round_after_stop (w : World) (now : Z) (frac : bool) (el : EventLoop.t) :
  Timer.state (EventLoop.timer el) <> RUNNING ->
  EventLoop.tasks (EventLoop.run_round w now frac el) = []
  /\ EventLoop.timer (EventLoop.run_round w now frac el) = EventLoop.timer el.
Proof.
  intros H. unfold EventLoop.run_round.
  assert (E : forall todo,
             EventLoop.resume_all w now frac todo (EventLoop.timer el)
             = (EventLoop.timer el, [], [])).
  { induction todo as [|[] rest IH]; cbn [EventLoop.resume_all]; [ reflexivity | ].
    rewrite (@runloop_turn_exits w now frac (EventLoop.timer el) H). cbn [final value trace].
    rewrite IH. reflexivity. }
  rewrite E. split; reflexivity.
Qed.

(** C8, as the code has it: [start] does not look at [state].  Every call
    that completes leaves the timer running and puts exactly one new
    [runloop] task on the event loop, next to those that are there; a call
    that raises puts none. *)
Theorem start_schedules_one_runloop (w : World) (now : Z) (el : EventLoop.t) :
  let r := EventLoop.call_start w now el in
  EventLoop.tasks (fst r)
  = EventLoop.tasks el ++ match snd r with Ok _ => [Runloop] | Raise _ => [] end
  /\ match snd r with
     | Ok _ => Timer.state (EventLoop.timer (fst r)) = RUNNING
               /\ EventLoop.live (fst r) = S (EventLoop.live el)
     | Raise _ => EventLoop.live (fst r) = EventLoop.live el
     end.
Proof.
  cbv zeta. unfold EventLoop.call_start, EventLoop.live. cbn [fst snd EventLoop.tasks].
  rewrite start_outcome. cbv zeta.
  pose proof (change_stage_schedules_nothing w now 0 true true false
                                             (EventLoop.timer el)) as Hn.
  destruct (Timer.change_stage w now 0 true true false (EventLoop.timer el))
    as [s tr [u|e]].
  - cbn [value trace final] in *. unfold EventLoop.scheduled in *.
    rewrite flat_map_app, Hn. cbn [flat_map app EventLoop.timer].
    split; [ reflexivity | ]. split; [ reflexivity | ].
    rewrite length_app. cbn [List.length]. lia.
  - cbn [value trace final] in *. rewrite Hn, app_nil_r.
    split; reflexivity.
Qed.

(** C8, as the claim has it, fails: on the timer that [start] has set
    running, with its one loop on the event loop, a second [start] completes
    and leaves two [runloop] tasks, and both are still there, the timer
    still running, after the loop has resumed each of them. *)
Lemma start_while_running_adds_loop :
  let el := Sample.loop_started in
  let again := EventLoop.call_start Sample.w_ok 1010 el in
  let later := EventLoop.run_round Sample.w_ok 1011 false (fst again) in
  Timer.state (EventLoop.timer el) = RUNNING
  /\ EventLoop.tasks el = [Runloop]
  /\ snd again = Ok tt
  /\ EventLoop.tasks (fst again) = [Runloop; Runloop]
  /\ EventLoop.tasks later = [Runloop; Runloop]
  /\ Timer.state (EventLoop.timer later) = RUNNING
  /\ ~ (EventLoop.live (fst again) <= 1)%nat.
Proof.
  cbv zeta. repeat split; try (vm_compute; reflexivity).
  vm_compute. lia.
Qed.

(** * Further properties of the code *)

(** ** Subscribers *)

Lemma last_cons {A} (x : A) (l : list A) (d : A) : last (x :: l) d = last l x.
Proof.
  revert x d. induction l as [|y tl IH]; intros x d; [ reflexivity | ].
  change (last (x :: y :: tl) d) with (last (y :: tl) d).
  change (last (y :: tl) x) with (last (y :: tl) x).
  rewrite (IH y d). symmetry. apply IH.
Qed.

(** X1: however many times and at whatever readings [touch] is called, an
    active subscriber has been credited the time from its [last_updated] to
    the last reading, once, and an inactive one nothing; [last_updated] is
    the last reading. *)
Theorem touches_credit (times : list Z) (self : TimerSubscriber.t) :
  TimerSubscriber.active (touches times self) = TimerSubscriber.active self
  /\ TimerSubscriber.last_updated (touches times self)
     = last times (TimerSubscriber.last_updated self)
  /\ TimerSubscriber.clocked_time (touches times self)
     = TimerSubscriber.clocked_time self
       + (if TimerSubscriber.active self
          then last times (TimerSubscriber.last_updated self)
               - TimerSubscriber.last_updated self
          else 0).
Proof.
  revert self. induction times as [|now rest IH]; intros self.
  - cbn. repeat split. destruct (TimerSubscriber.active self); lia.
  - unfold touches in *. cbn [fold_left].
    destruct (IH (TimerSubscriber.touch now self)) as [Ha [Hl Hc]].
    rewrite Ha, Hl, Hc, last_cons.
    cbn [TimerSubscriber.active TimerSubscriber.touch
         TimerSubscriber.last_updated TimerSubscriber.clocked_time].
    repeat split. destruct (TimerSubscriber.active self); lia.
Qed.

(** X2: [bump] and [touch] do not interfere: [bump] leaves the accounting
    fields alone, [touch] leaves the presence fields alone, and the two can
    be called in either order. *)
Theorem bump_touch_commute (seen now : Z) (self : TimerSubscriber.t) :
  TimerSubscriber.touch now (TimerSubscriber.bump seen self)
  = TimerSubscriber.bump seen (TimerSubscriber.touch now self)
  /\ TimerSubscriber.clocked_time (TimerSubscriber.bump seen self)
     = TimerSubscriber.clocked_time self
  /\ TimerSubscriber.last_updated (TimerSubscriber.bump seen self)
     = TimerSubscriber.last_updated self
  /\ TimerSubscriber.active (TimerSubscriber.bump seen self)
     = TimerSubscriber.active self
  /\ TimerSubscriber.last_seen (TimerSubscriber.touch now self)
     = TimerSubscriber.last_seen self
  /\ TimerSubscriber.warnings (TimerSubscriber.touch now self)
     = TimerSubscriber.warnings self
  /\ TimerSubscriber.last_seen (TimerSubscriber.bump seen self) = seen
  /\ TimerSubscriber.warnings (TimerSubscriber.bump seen self) = 0.
Proof. repeat split. Qed.

(** X3: [session_data] reports the clocked time brought up to the time of
    the call, together with the ids and the join time, and stores what it
    reports; asked again at the same clock reading it reports the same and
    changes nothing. *)
Theorem session_data_reports (now : Z) (self : TimerSubscriber.t) :
  let after := fst (TimerSubscriber.session_data now self) in
  let data := snd (TimerSubscriber.session_data now self) in
  after = TimerSubscriber.touch now self
  /\ data
     = (TimerSubscriber.id self,
        Guild.id (Member.guild (TimerSubscriber.member self)),
        Role.id (TimerSubscriber.role (TimerSubscriber.timer self)),
        TimerSubscriber.time_joined self,
        TimerSubscriber.clocked_time self
        + (if TimerSubscriber.active self
           then now - TimerSubscriber.last_updated self else 0))
  /\ snd (snd (TimerSubscriber.session_data now self))
     = TimerSubscriber.clocked_time after
  /\ TimerSubscriber.session_data now after = (after, data).
Proof.
  cbv zeta. unfold TimerSubscriber.session_data. cbn [fst snd].
  split; [ reflexivity | ]. split; [ reflexivity | ]. split; [ reflexivity | ].
  assert (E : TimerSubscriber.touch now (TimerSubscriber.touch now self)
              = TimerSubscriber.touch now self).
  { unfold TimerSubscriber.touch at 1 3. cbn. f_equal.
    destruct (TimerSubscriber.active self); lia. }
  rewrite E. reflexivity.
Qed.

(** ** Stage changes, in every case *)

Lemma getitem_nil {A} (i : Z) : @getitem A [] i = Raise IndexError.
Proof.
  unfold getitem. cbn [List.length Z.of_nat].
  match goal with |- context [?a && ?b] => destruct (a && b) eqn:E end;
    [ | reflexivity ].
  apply andb_true_iff in E. destruct E as [E1 E2].
  apply Z.leb_le in E1. apply Z.ltb_lt in E2.
  destruct (i <? 0) eqn:Ei; [ apply Z.ltb_lt in Ei | apply Z.ltb_ge in Ei ]; lia.
Qed.

Lemma getitem_raises {A} (l : list A) (i : Z) (e : exn) :
  getitem l i = Raise e -> e = IndexError.
Proof.
  unfold getitem.
  destruct ((0 <=? _) && (_ <? _)); [ | congruence ].
  destruct (nth_error l _); congruence.
Qed.

Section ChangeStageCases.

Variable w : World.
Variables (now stage_index : Z) (notify inactivity_check report_old : bool).
Variable self : Timer.t.

Hypothesis nobody : Timer.subscribed self = [].

Let o := Timer.change_stage w now stage_index notify inactivity_check report_old self.

Lemma change_stage_prefix :
  o = bind (lift (Timer.len (Timer.stages self))) (fun n =>
      bind (lift (py_mod stage_index n)) (fun stage_index =>
      bind (lift (Timer.subscript (Timer.stages self) (Timer.current_stage self)))
           (fun current_stage =>
      bind (lift (Timer.subscript (Timer.stages self) stage_index)) (fun new_stage =>
      bind (if notify
            then Timer.announce w self current_stage new_stage report_old
            else ret tt) (fun _ =>
      bind (modify (Timer.set_current_stage stage_index)) (fun _ =>
      bind (modify (Timer.set_current_stage_start (Some now))) (fun _ =>
      bind (lift (Timer.subscript (Timer.stages self) stage_index)) (fun stage =>
      modify (Timer.set_remaining (Some (TimerStage.duration stage * 60))))))))))) self.
Proof.
  subst o. unfold Timer.change_stage, Timer.iter_subscribed. run_method.
  rewrite nobody. cbn [map for_each]. run_method. reflexivity.
Qed.

Lemma change_stage_no_stages :
  Timer.stages self = None -> o = Out self [] (Raise TypeError).
Proof.
  intros H. rewrite change_stage_prefix, H. cbn [Timer.len]. run_method. reflexivity.
Qed.

Lemma change_stage_empty_stages :
  Timer.stages self = Some [] -> o = Out self [] (Raise ZeroDivisionError).
Proof.
  intros H. rewrite change_stage_prefix, H. cbn [Timer.len List.length Z.of_nat].
  run_method. unfold py_mod. cbn [Z.eqb]. run_method. reflexivity.
Qed.

Lemma change_stage_bad_current (l : list TimerStage.t) (e : exn) :
  Timer.stages self = Some l ->
  l <> [] ->
  getitem l (Timer.current_stage self) = Raise e ->
  o = Out self [] (Raise IndexError).
Proof.
  intros H Hne Hc. rewrite change_stage_prefix, H. cbn [Timer.len Timer.subscript].
  run_method. unfold py_mod.
  assert (Hn : Z.of_nat (List.length l) <> 0) by (destruct l; [ congruence | cbn; lia ]).
  rewrite (proj2 (Z.eqb_neq _ _) Hn). run_method.
  rewrite Hc, (getitem_raises _ _ Hc). run_method. reflexivity.
Qed.

End ChangeStageCases.

Lemma change_stage_no_current
      (w : World) (now stage_index : Z)
      (notify inactivity_check report_old : bool) (self : Timer.t) (e : exn) :
  Timer.subscribed self = [] ->
  Timer.subscript (Timer.stages self) (Timer.current_stage self) = Raise e ->
  Timer.change_stage w now stage_index notify inactivity_check report_old self
  = Out self []
        (Raise match Timer.stages self with
               | None => TypeError
               | Some [] => ZeroDivisionError
               | Some (_ :: _) => IndexError
               end).
Proof.
  intros Hs He. destruct (Timer.stages self) as [[|st tl]|] eqn:Hst.
  - exact (@change_stage_empty_stages w now stage_index notify inactivity_check
             report_old self Hs Hst).
  - cbn [Timer.subscript] in He.
    assert (Hne : st :: tl <> []) by discriminate.
    exact (@change_stage_bad_current w now stage_index notify inactivity_check
             report_old self Hs (st :: tl) e Hst Hne He).
  - exact (@change_stage_no_stages w now stage_index notify inactivity_check
             report_old self Hs Hst).
Qed.

(** [change_stage] raises only before it has changed the timer. *)
Lemma change_stage_raises_unchanged
      (w : World) (now stage_index : Z)
      (notify inactivity_check report_old : bool) (self : Timer.t) (e : exn) :
  value (Timer.change_stage w now stage_index notify inactivity_check
                            report_old self) = Raise e ->
  final (Timer.change_stage w now stage_index notify inactivity_check
                            report_old self) = self.
Proof.
  destruct (Timer.subscribed self) as [|kv rest] eqn:Hs.
  2:{ rewrite change_stage_subscribed by (rewrite Hs; discriminate). reflexivity. }
  destruct (Timer.subscript (Timer.stages self) (Timer.current_stage self))
    as [current|e'] eqn:Hc.
  2:{ rewrite (@change_stage_no_current w now stage_index notify inactivity_check
                 report_old self e' Hs Hc). reflexivity. }
  destruct (Timer.stages self) as [l|] eqn:Hst; [ | discriminate Hc ].
  cbn [Timer.subscript] in Hc.
  assert (Hn : 0 < Z.of_nat (List.length l)).
  { destruct l; [ rewrite getitem_nil in Hc; discriminate | cbn; lia ]. }
  destruct (@getitem_in_range _ l (stage_index mod Z.of_nat (List.length l)))
    as [new [Hnew _]]; [ apply Z.mod_pos_bound; lia | ].
  rewrite (@change_stage_unsubscribed w now stage_index notify inactivity_check
             report_old self l current new Hs Hst Hc Hnew).
  cbv zeta.
  destruct (value (if notify
                   then Timer.announce w self current new report_old self
                   else Out self [] (Ok tt))) as [u|e'']; [ discriminate | reflexivity ].
Qed.

(** X4: on a timer without subscribers whose current stage cannot be looked
    up (no stage list, an empty one, or an index outside it), [change_stage]
    raises before it sends or changes anything: [TypeError] without a stage
    list, [ZeroDivisionError] with an empty one, [IndexError] otherwise. *)
Theorem change_stage_unconfigured
        (w : World) (now stage_index : Z)
        (notify inactivity_check report_old : bool) (self : Timer.t) (e : exn) :
  Timer.subscribed self = [] ->
  Timer.subscript (Timer.stages self) (Timer.current_stage self) = Raise e ->
  let o := Timer.change_stage w now stage_index notify inactivity_check
                              report_old self in
  value o = Raise match Timer.stages self with
                  | None => TypeError
                  | Some [] => ZeroDivisionError
                  | Some (_ :: _) => IndexError
                  end
  /\ trace o = []
  /\ final o = self.
Proof.
  intros Hs He. cbv zeta.
  rewrite (@change_stage_no_current w now stage_index notify inactivity_check
             report_old self e Hs He).
  repeat split.
Qed.

Lemma change_stage_unconfigured_witness :
  Timer.subscribed Sample.idle = []
  /\ Timer.subscript (Timer.stages Sample.idle) (Timer.current_stage Sample.idle)
     = Raise TypeError
  /\ value (Timer.change_stage Sample.w_ok 2000 1 true true true Sample.idle)
     = Raise TypeError
  /\ final (Timer.change_stage Sample.w_ok 2000 1 true true true Sample.idle)
     = Sample.idle.
Proof.
  split; [ reflexivity | ]. split; [ reflexivity | ].
  destruct (@change_stage_unconfigured Sample.w_ok 2000 1 true true true Sample.idle
              TypeError eq_refl eq_refl) as [Hv [_ Hf]].
  split; [ exact Hv | exact Hf ].
Defined.

(** X5: [change_stage] is all or nothing.  If it raises, the timer is as it
    was before the call; if it returns, the timer has entered the stage at
    the requested index modulo the number of stages. *)
Theorem change_stage_all_or_nothing
        (w : World) (now stage_index : Z)
        (notify inactivity_check report_old : bool) (self : Timer.t) :
  let o := Timer.change_stage w now stage_index notify inactivity_check
                              report_old self in
  match value o with
  | Raise _ => final o = self
  | Ok _ =>
      exists l new,
        Timer.stages self = Some l
        /\ getitem l (stage_index mod Z.of_nat (List.length l)) = Ok new
        /\ final o = entered now (stage_index mod Z.of_nat (List.length l)) new self
  end.
Proof.
  cbv zeta.
  destruct (Timer.subscribed self) as [|kv rest] eqn:Hs.
  2:{ rewrite change_stage_subscribed by (rewrite Hs; discriminate). reflexivity. }
  destruct (Timer.subscript (Timer.stages self) (Timer.current_stage self))
    as [current|e] eqn:Hc.
  2:{ rewrite (@change_stage_no_current w now stage_index notify inactivity_check
                 report_old self e Hs Hc). reflexivity. }
  destruct (Timer.stages self) as [l|] eqn:Hst; [ | discriminate Hc ].
  cbn [Timer.subscript] in Hc.
  assert (Hn : 0 < Z.of_nat (List.length l)).
  { destruct l; [ rewrite getitem_nil in Hc; discriminate | cbn; lia ]. }
  destruct (@getitem_in_range _ l (stage_index mod Z.of_nat (List.length l)))
    as [new [Hnew _]]; [ apply Z.mod_pos_bound; lia | ].
  rewrite (@change_stage_unsubscribed w now stage_index notify inactivity_check
             report_old self l current new Hs Hst Hc Hnew).
  cbv zeta.
  destruct (value (if notify
                   then Timer.announce w self current new report_old self
                   else Out self [] (Ok tt))) as [u|e].
  - cbn [value final]. exists l, new. repeat split; assumption.
  - reflexivity.
Qed.

(** X6: the notification of [change_stage], on a timer without subscribers
    whose current stage exists.  With [notify] off nothing is sent.  With
    [notify] on, one message goes to the timer's channel; if that send
    raises, the exception leaves [change_stage] and the stage is not
    changed; if it succeeds, one reaction is requested on the new message
    and the stage is changed whatever becomes of the reaction. *)
Theorem change_stage_notification
        (w : World) (now stage_index : Z)
        (inactivity_check report_old : bool) (self : Timer.t)
        (l : list TimerStage.t) (current : TimerStage.t) :
  Timer.subscribed self = [] ->
  Timer.stages self = Some l ->
  getitem l (Timer.current_stage self) = Ok current ->
  exists new,
    let index := stage_index mod Z.of_nat (List.length l) in
    let text := Text (Timer.announcement self current new report_old) in
    getitem l index = Ok new
    /\ Timer.change_stage w now stage_index false inactivity_check report_old self
       = Out (entered now index new self) [] (Ok tt)
    /\ Timer.change_stage w now stage_index true inactivity_check report_old self
       = match w_send w (Timer.channel self) text with
         | Ok out_msg =>
             Out (entered now index new self)
                 [EvSend (Timer.channel self) text; EvAddReaction out_msg [9989%N]]
                 (Ok tt)
         | Raise e => Out self [EvSend (Timer.channel self) text] (Raise e)
         end.
Proof.
  intros Hs Hst Hc.
  assert (Hn : 0 < Z.of_nat (List.length l)).
  { destruct l; [ rewrite getitem_nil in Hc; discriminate | cbn; lia ]. }
  destruct (@getitem_in_range _ l (stage_index mod Z.of_nat (List.length l)))
    as [new [Hnew _]]; [ apply Z.mod_pos_bound; lia | ].
  exists new. cbv zeta. split; [ exact Hnew | ]. split.
  - rewrite (@change_stage_unsubscribed w now stage_index false inactivity_check
               report_old self l current new Hs Hst Hc Hnew). reflexivity.
  - rewrite (@change_stage_unsubscribed w now stage_index true inactivity_check
               report_old self l current new Hs Hst Hc Hnew).
    cbv zeta. rewrite announce_outcome. cbv zeta.
    destruct (w_send w (Timer.channel self)
                (Text (Timer.announcement self current new report_old)));
      reflexivity.
Qed.

Lemma change_stage_notification_witness :
  Timer.subscribed Sample.study_running = []
  /\ value (Timer.change_stage Sample.w_no_send 2000 1 true true true
                               Sample.study_running) = Raise Forbidden
  /\ final (Timer.change_stage Sample.w_no_send 2000 1 true true true
                               Sample.study_running) = Sample.study_running
  /\ Timer.current_stage
       (final (Timer.change_stage Sample.w_ok 2000 1 true true true
                                  Sample.study_running)) = 1.
Proof.
  assert (Hs : Timer.subscribed Sample.study_running = []) by reflexivity.
  assert (Hst : Timer.stages Sample.study_running
                = Some [Sample.work; Sample.short_break; Sample.long_break])
    by reflexivity.
  assert (Hc : getitem [Sample.work; Sample.short_break; Sample.long_break]
                       (Timer.current_stage Sample.study_running) = Ok Sample.work)
    by reflexivity.
  destruct (@change_stage_notification Sample.w_no_send 2000 1 true true
              Sample.study_running _ _ Hs Hst Hc) as [new [_ [_ Hbad]]].
  destruct (@change_stage_notification Sample.w_ok 2000 1 true true
              Sample.study_running _ _ Hs Hst Hc) as [new' [Hnew' [_ Hgood]]].
  vm_compute in Hnew'. injection Hnew' as <-.
  cbv zeta in *.
  split; [ exact Hs | ]. rewrite Hbad, Hgood.
  split; [ reflexivity | ]. split; [ reflexivity | ]. reflexivity.
Defined.

(** X7: whatever its outcome, [change_stage] leaves the state of the timer
    (a paused or stopped timer stays so), its stage list, its subscribers,
    the session start and the bindings of the timer as they were. *)
Theorem change_stage_frame
        (w : World) (now stage_index : Z)
        (notify inactivity_check report_old : bool) (self : Timer.t) :
  let o := Timer.change_stage w now stage_index notify inactivity_check
                              report_old self in
  Timer.state (final o) = Timer.state self
  /\ Timer.stages (final o) = Timer.stages self
  /\ Timer.subscribed (final o) = Timer.subscribed self
  /\ Timer.start_time (final o) = Timer.start_time self
  /\ Timer.name (final o) = Timer.name self
  /\ Timer.role (final o) = Timer.role self
  /\ Timer.channel (final o) = Timer.channel self
  /\ Timer.clock_channel (final o) = Timer.clock_channel self.
Proof.
  cbv zeta.
  assert (K : forall X (f : Timer.t -> X),
             (forall v s, f (Timer.set_current_stage v s) = f s) ->
             (forall v s, f (Timer.set_current_stage_start v s) = f s) ->
             (forall v s, f (Timer.set_remaining v s) = f s) ->
             keeps f (Timer.change_stage w now stage_index notify inactivity_check
                                         report_old)).
  { intros X f H1 H2 H3. unfold Timer.change_stage, Timer.announce.
    repeat first
      [ apply keeps_modify; intros ?; solve [ apply H1 | apply H2 | apply H3 ]
      | keeps_step ]. }
  repeat split; apply K; reflexivity.
Qed.

(** ** Advancing round the stage list *)

Lemma entered_fields (now index : Z) (stage : TimerStage.t) (self : Timer.t) :
  Timer.subscribed (entered now index stage self) = Timer.subscribed self
  /\ Timer.stages (entered now index stage self) = Timer.stages self
  /\ Timer.channel (entered now index stage self) = Timer.channel self
  /\ Timer.state (entered now index stage self) = Timer.state self
  /\ Timer.current_stage (entered now index stage self) = index
  /\ Timer.current_stage_start (entered now index stage self) = Some now
  /\ Timer.remaining (entered now index stage self)
     = Some (TimerStage.duration stage * 60).
Proof. repeat split. Qed.

Lemma configured_current (l : list TimerStage.t) (self : Timer.t) :
  configured l self ->
  exists current, getitem l (Timer.current_stage self) = Ok current.
Proof.
  intros [_ Hr]. destruct (@getitem_in_range _ l _ Hr) as [x [Hx _]].
  exists x; exact Hx.
Qed.

Section Advance.

Variable w : World.
Variable l : list TimerStage.t.
Variable here : handle.

(** The channel of the timer accepts every message. *)
Hypothesis accepted : forall c, exists m, w_send w here c = Ok m.

Let n : Z := Z.of_nat (List.length l).

Lemma advance_step (now : Z) (self : Timer.t) :
  Timer.subscribed self = [] ->
  Timer.channel self = here ->
  configured l self ->
  exists new,
    getitem l ((Timer.current_stage self + 1) mod n) = Ok new
    /\ value (advance w now self) = Ok tt
    /\ final (advance w now self)
       = entered now ((Timer.current_stage self + 1) mod n) new self.
Proof.
  intros Hs Hch Hcf. destruct (configured_current Hcf) as [current Hc].
  destruct Hcf as [Hst Hr].
  destruct (@getitem_in_range _ l ((Timer.current_stage self + 1) mod n))
    as [new [Hnew _]]; [ apply Z.mod_pos_bound; subst n; lia | ].
  exists new. split; [ exact Hnew | ].
  unfold advance. run_method.
  rewrite (@change_stage_unsubscribed w now (Timer.current_stage self + 1) true true
             true self l current new Hs Hst Hc Hnew).
  cbv zeta. rewrite announce_outcome. cbv zeta. rewrite Hch.
  destruct (accepted (Text (Timer.announcement self current new true))) as [m Hm].
  rewrite Hm. split; reflexivity.
Qed.

Lemma advances_run (times : list Z) :
  forall self,
    Timer.subscribed self = [] ->
    Timer.channel self = here ->
    configured l self ->
    value (advances w times self) = Ok tt
    /\ Timer.subscribed (final (advances w times self)) = []
    /\ Timer.channel (final (advances w times self)) = here
    /\ Timer.state (final (advances w times self)) = Timer.state self
    /\ configured l (final (advances w times self))
    /\ Timer.current_stage (final (advances w times self))
       = (Timer.current_stage self + Z.of_nat (List.length times)) mod n.
Proof.
  induction times as [|now rest IH]; intros self Hs Hch Hcf.
  - cbn [advances ret final value List.length Z.of_nat].
    repeat split; try assumption; try apply Hcf.
    rewrite Z.add_0_r, Z.mod_small; [ reflexivity | apply Hcf ].
  - destruct (advance_step now Hs Hch Hcf) as [new [Hnew [Hv Hf]]].
    assert (Hn : 0 < n) by (destruct Hcf as [_ Hr]; subst n; lia).
    assert (Hcf' : configured l (final (advance w now self))).
    { rewrite Hf. split; [ apply Hcf | ]. cbn. apply Z.mod_pos_bound; exact Hn. }
    assert (Hs' : Timer.subscribed (final (advance w now self)) = [])
      by (rewrite Hf; exact Hs).
    assert (Hch' : Timer.channel (final (advance w now self)) = here)
      by (rewrite Hf; exact Hch).
    destruct (IH _ Hs' Hch' Hcf') as [IH1 [IH2 [IH3 [IH4 [IH5 IH6]]]]].
    cbn [advances].
    assert (E : advance w now self
                = Out (final (advance w now self)) (trace (advance w now self)) (Ok tt))
      by (rewrite <- Hv; symmetry; apply outcome_eta).
    erewrite bind_after by exact E. cbn [value final].
    split; [ exact IH1 | ]. split; [ exact IH2 | ]. split; [ exact IH3 | ].
    split; [ rewrite IH4, Hf; reflexivity | ]. split; [ exact IH5 | ].
    rewrite IH6, Hf. cbn [List.length].
    change (Timer.current_stage (entered now ((Timer.current_stage self + 1) mod n)
                                         new self))
      with ((Timer.current_stage self + 1) mod n).
    rewrite Z.add_mod_idemp_l by lia. f_equal. lia.
Qed.

End Advance.

(** X8: the stage list is cyclic.  On a timer without subscribers, with a
    current stage, whose channel accepts the notifications, any number [k]
    of advances ([change_stage(current_stage + 1)]) completes and leaves
    the index [k] places further round the list; as many advances as there
    are stages bring the timer back to the stage it was in. *)
Theorem advances_cycle
        (w : World) (l : list TimerStage.t) (times : list Z) (self : Timer.t) :
  Timer.subscribed self = [] ->
  configured l self ->
  (forall c, exists m, w_send w (Timer.channel self) c = Ok m) ->
  let o := advances w times self in
  value o = Ok tt
  /\ Timer.current_stage (final o)
     = (Timer.current_stage self + Z.of_nat (List.length times))
         mod Z.of_nat (List.length l)
  /\ 0 <= Timer.current_stage (final o) < Z.of_nat (List.length l)
  /\ (List.length times = List.length l ->
      Timer.current_stage (final o) = Timer.current_stage self).
Proof.
  intros Hs Hcf Hw. cbv zeta.
  destruct (@advances_run w l (Timer.channel self) Hw times self Hs eq_refl Hcf)
    as [Hv [_ [_ [_ [Hcf' Hi]]]]].
  split; [ exact Hv | ]. split; [ exact Hi | ]. split; [ apply Hcf' | ].
  intros Hlen. rewrite Hi, Hlen.
  destruct Hcf as [_ Hr].
  rewrite <- (Z.mul_1_l (Z.of_nat (List.length l))) at 1.
  rewrite Z.mod_add by lia. apply Z.mod_small. exact Hr.
Qed.

Lemma advances_cycle_witness :
  let l := [Sample.work; Sample.short_break; Sample.long_break] in
  Timer.subscribed Sample.study_running = []
  /\ configured l Sample.study_running
  /\ Timer.current_stage
       (final (advances Sample.w_ok [2000; 2100] Sample.study_running)) = 2
  /\ Timer.current_stage
       (final (advances Sample.w_ok [2000; 2100; 2200] Sample.study_running)) = 0.
Proof.
  cbv zeta.
  assert (Hs : Timer.subscribed Sample.study_running = []) by reflexivity.
  assert (Hcf : configured [Sample.work; Sample.short_break; Sample.long_break]
                           Sample.study_running).
  { split; [ reflexivity | ]. split; [ discriminate | reflexivity ]. }
  assert (Hw : forall c, exists m,
               w_send Sample.w_ok (Timer.channel Sample.study_running) c = Ok m)
    by (intros c; exists 77; reflexivity).
  destruct (@advances_cycle Sample.w_ok _ [2000; 2100] Sample.study_running Hs Hcf Hw)
    as [_ [H2 _]].
  destruct (@advances_cycle Sample.w_ok _ [2000; 2100; 2200] Sample.study_running
              Hs Hcf Hw) as [_ [_ [_ H3]]].
  split; [ exact Hs | ]. split; [ exact Hcf | ].
  split; [ rewrite H2; reflexivity | rewrite (H3 eq_refl); reflexivity ].
Defined.

(** ** Starting *)

(** X9: [start] on a timer without subscribers that has stages and a
    current stage, when the channel accepts the notification: the timer
    enters stage 0 with 60 times its duration in minutes on the clock and is
    running; the notification names the new stage only, without the line
    about a finished stage; and the calls are the send, the reaction on the
    new message and, last, the scheduling of one [runloop]. *)
Theorem start_enters_first_stage
        (w : World) (now : Z) (self : Timer.t)
        (first current : TimerStage.t) (rest : list TimerStage.t) (out_msg : handle) :
  let text :=
    Text (Role.mention (Timer.role self) ++ [10%N]
            ++ lit "Starting **" ++ TimerStage.name first ++ lit "** ("
            ++ str_of_int (TimerStage.duration first) ++ lit " minutes). "
            ++ TimerStage.message first ++ [10%N]
            ++ lit "Please react to this message to register your presence!") in
  Timer.subscribed self = [] ->
  Timer.stages self = Some (first :: rest) ->
  getitem (first :: rest) (Timer.current_stage self) = Ok current ->
  w_send w (Timer.channel self) text = Ok out_msg ->
  let o := Timer.start w now self in
  value o = Ok tt
  /\ trace o = [EvSend (Timer.channel self) text;
                EvAddReaction out_msg [9989%N];
                EvEnsureFuture Runloop]
  /\ final o = Timer.set_state RUNNING (entered now 0 first self)
  /\ Timer.state (final o) = RUNNING
  /\ Timer.current_stage (final o) = 0
  /\ Timer.current_stage_start (final o) = Some now
  /\ Timer.remaining (final o) = Some (TimerStage.duration first * 60).
Proof.
  intros text Hs Hst Hc Hw. cbv zeta.
  assert (Hnew : getitem (first :: rest)
                         (0 mod Z.of_nat (List.length (first :: rest))) = Ok first)
    by reflexivity.
  rewrite start_outcome. cbv zeta.
  rewrite (@change_stage_unsubscribed w now 0 true true false self (first :: rest)
             current first Hs Hst Hc Hnew).
  cbv zeta. rewrite announce_outcome. cbv zeta.
  change (Text (Timer.announcement self current first false)) with text.
  rewrite Hw. cbn [value trace final app].
  change (0 mod Z.of_nat (List.length (first :: rest))) with 0.
  repeat split.
Qed.

Lemma start_enters_first_stage_witness :
  Timer.subscribed Sample.study = []
  /\ Timer.remaining Sample.study = Some 25
  /\ value (Timer.start Sample.w_ok 1000 Sample.study) = Ok tt
  /\ Timer.state (final (Timer.start Sample.w_ok 1000 Sample.study)) = RUNNING
  /\ Timer.remaining (final (Timer.start Sample.w_ok 1000 Sample.study)) = Some 1500.
Proof.
  destruct (@start_enters_first_stage Sample.w_ok 1000 Sample.study Sample.work
              Sample.work [Sample.short_break; Sample.long_break] 77
              eq_refl eq_refl eq_refl eq_refl)
    as [Hv [_ [_ [Hstate [_ [_ Hrem]]]]]].
  split; [ reflexivity | ]. split; [ reflexivity | ].
  split; [ exact Hv | ]. split; [ exact Hstate | exact Hrem ].
Defined.

(** X10: a [start] that raises has changed nothing and scheduled nothing:
    the timer, its state included, is as before the call and no [runloop]
    was handed to the event loop. *)
Theorem start_fails_clean (w : World) (now : Z) (self : Timer.t) (e : exn) :
  value (Timer.start w now self) = Raise e ->
  final (Timer.start w now self) = self
  /\ EventLoop.scheduled (trace (Timer.start w now self)) = []
  /\ value (Timer.change_stage w now 0 true true false self) = Raise e.
Proof.
  rewrite start_outcome. cbv zeta.
  pose proof (@change_stage_raises_unchanged w now 0 true true false self) as Hu.
  pose proof (change_stage_schedules_nothing w now 0 true true false self) as Hn.
  destruct (Timer.change_stage w now 0 true true false self) as [s tr [u|e']].
  - discriminate.
  - cbn [value final trace] in *. intros H. injection H as <-.
    split; [ apply (Hu e'); reflexivity | ]. split; [ exact Hn | reflexivity ].
Qed.

Lemma start_fails_clean_witness :
  value (Timer.start Sample.w_ok 1000 Sample.idle) = Raise TypeError
  /\ final (Timer.start Sample.w_ok 1000 Sample.idle) = Sample.idle
  /\ Timer.state (final (Timer.start Sample.w_ok 1000 Sample.idle)) = STOPPED.
Proof.
  assert (Hv : value (Timer.start Sample.w_ok 1000 Sample.idle) = Raise TypeError)
    by reflexivity.
  destruct (@start_fails_clean Sample.w_ok 1000 Sample.idle TypeError Hv) as [Hf _].
  split; [ exact Hv | ]. split; [ exact Hf | ]. rewrite Hf. reflexivity.
Defined.

(** ** Construction and setup *)

(** X11: [setup] with a stage list that is not empty always completes,
    without a call: the timer is stopped at stage 0, session and stage start
    at the time of the call, [remaining] holds the duration of the first
    stage as it is given (minutes, not seconds), subscribers and
    [last_clockupdate] are kept; and a second [setup] with the same list at
    the same time changes nothing more. *)
Theorem setup_idempotent (now : Z) (stage : TimerStage.t)
        (rest : list TimerStage.t) (self : Timer.t) :
  let o := Timer.setup now (Some (stage :: rest)) self in
  value o = Ok tt
  /\ trace o = []
  /\ Timer.state (final o) = STOPPED
  /\ Timer.stages (final o) = Some (stage :: rest)
  /\ Timer.current_stage (final o) = 0
  /\ Timer.start_time (final o) = Some now
  /\ Timer.current_stage_start (final o) = Some now
  /\ Timer.remaining (final o) = Some (TimerStage.duration stage)
  /\ Timer.subscribed (final o) = Timer.subscribed self
  /\ Timer.last_clockupdate (final o) = Timer.last_clockupdate self
  /\ Timer.setup now (Some (stage :: rest)) (final o) = Out (final o) [] (Ok tt).
Proof. cbv zeta. unfold Timer.setup. run_method. repeat split. Qed.

(** X12: the constructor never raises and makes no call.  The new timer is
    stopped, at index 0, without subscribers.  With a stage list that is not
    empty it is set up as by [setup]; with an empty or a missing one [setup]
    is not called, and session start, stage start and remaining time stay
    unset. *)
Theorem init_timer (now : Z) (name : str) (role : Role.t) (channel : handle)
        (clock_channel : option handle) (stages : option (list TimerStage.t)) :
  let o := Timer.__init__ now name role channel clock_channel stages in
  value o = Ok tt
  /\ trace o = []
  /\ Timer.state (final o) = STOPPED
  /\ Timer.current_stage (final o) = 0
  /\ Timer.subscribed (final o) = []
  /\ Timer.last_clockupdate (final o) = 0
  /\ Timer.stages (final o) = stages
  /\ Timer.name (final o) = name
  /\ Timer.channel (final o) = channel
  /\ Timer.clock_channel (final o) = clock_channel
  /\ match stages with
     | Some (first :: _) =>
         Timer.start_time (final o) = Some now
         /\ Timer.current_stage_start (final o) = Some now
         /\ Timer.remaining (final o) = Some (TimerStage.duration first)
     | _ =>
         Timer.start_time (final o) = None
         /\ Timer.current_stage_start (final o) = None
         /\ Timer.remaining (final o) = None
     end.
Proof.
  cbv zeta. unfold Timer.__init__.
  destruct stages as [[|first rest]|]; cbn [Timer.truthy];
    unfold Timer.setup; run_method; repeat split.
Qed.

(** ** Rendering *)

Lemma format_two_digits (z : Z) :
  0 <= z < 100 -> format_0d 2 z = [digit (z / 10); digit (z mod 10)].
Proof.
  intros Hz.
  assert (H : forallb
                (fun k => match format_0d 2 (Z.of_nat k) with
                          | [a; b] => N.eqb a (digit (Z.of_nat k / 10))
                                      && N.eqb b (digit (Z.of_nat k mod 10))
                          | _ => false
                          end) (seq 0 100) = true)
    by (vm_compute; reflexivity).
  rewrite forallb_forall in H. specialize (H (Z.to_nat z)).
  rewrite Z2Nat.id in H by lia.
  assert (Hin : In (Z.to_nat z) (seq 0 100)) by (apply in_seq; lia).
  specialize (H Hin).
  destruct (format_0d 2 z) as [|a [|b [|c tl]]]; try discriminate H.
  apply andb_true_iff in H. destruct H as [Ha Hb].
  apply N.eqb_eq in Ha. apply N.eqb_eq in Hb. subst. reflexivity.
Qed.

(** X13: the clock of [pretty_remaining].  Below 100 hours the result is
    the eight characters HH:MM:SS, two decimal digits each, of the remaining
    seconds with negative values taken as 0: minutes and seconds are below
    60 and the three fields add up to that number of seconds.  In
    particular every remaining time that is not positive reads 00:00:00. *)
Theorem pretty_remaining_clock (self : Timer.t) (r : Z) :
  Timer.remaining self = Some r ->
  r < 360000 ->
  let d := Z.max r 0 in
  let h := d / 3600 in
  let m := d mod 3600 / 60 in
  let s := d mod 60 in
  Timer.pretty_remaining self
  = Ok [digit (h / 10); digit (h mod 10); 58%N;
        digit (m / 10); digit (m mod 10); 58%N;
        digit (s / 10); digit (s mod 10)]
  /\ h * 3600 + m * 60 + s = d
  /\ 0 <= h < 100 /\ 0 <= m < 60 /\ 0 <= s < 60
  /\ (r <= 0 -> Timer.pretty_remaining self = Ok (lit "00:00:00")).
Proof.
  intros Hr Hlt. cbv zeta.
  assert (Hd : 0 <= Z.max r 0 < 360000) by lia.
  set (d := Z.max r 0) in *.
  assert (Hh : 0 <= d / 3600 < 100).
  { split; [ apply Z.div_pos; lia | apply Z.div_lt_upper_bound; lia ]. }
  assert (Hm : 0 <= d mod 3600 / 60 < 60).
  { pose proof (Z.mod_pos_bound d 3600 ltac:(lia)).
    split; [ apply Z.div_pos; lia | apply Z.div_lt_upper_bound; lia ]. }
  assert (Hs : 0 <= d mod 60 < 60) by (apply Z.mod_pos_bound; lia).
  assert (Hsum : d / 3600 * 3600 + d mod 3600 / 60 * 60 + d mod 60 = d).
  { pose proof (Z.div_mod d 3600 ltac:(lia)) as E1.
    pose proof (Z.div_mod (d mod 3600) 60 ltac:(lia)) as E2.
    assert (E3 : (d mod 3600) mod 60 = d mod 60).
    { replace 3600 with (60 * 60) by reflexivity.
      rewrite Z.rem_mul_r by lia.
      rewrite Z.add_mod by lia. rewrite Z.mod_mod by lia.
      rewrite Z.mul_comm, Z.mod_mul by lia. rewrite Z.add_0_r.
      rewrite Z.mod_mod by lia. reflexivity. }
    lia. }
  assert (E : Timer.pretty_remaining self
              = Ok [digit (d / 3600 / 10); digit ((d / 3600) mod 10); 58%N;
                    digit (d mod 3600 / 60 / 10); digit ((d mod 3600 / 60) mod 10); 58%N;
                    digit (d mod 60 / 10); digit ((d mod 60) mod 10)]).
  { unfold Timer.pretty_remaining. rewrite Hr. cbv zeta. fold d.
    rewrite (format_two_digits Hh).
    rewrite (@format_two_digits (d mod 60)) by lia.
    rewrite (@format_two_digits (d mod 3600 / 60)) by lia.
    reflexivity. }
  split; [ exact E | ]. split; [ exact Hsum | ].
  split; [ exact Hh | ]. split; [ exact Hm | ]. split; [ exact Hs | ].
  intros Hneg. rewrite E. subst d. rewrite Z.max_r by lia. reflexivity.
Qed.

Lemma pretty_remaining_clock_witness :
  let self := Timer.set_remaining (Some 125) Sample.study_running in
  Timer.remaining self = Some 125
  /\ Timer.pretty_remaining self = Ok (lit "00:02:05")
  /\ Timer.pretty_remaining (Timer.set_remaining (Some (-7)) Sample.study_running)
     = Ok (lit "00:00:00").
Proof.
  cbv zeta.
  destruct (@pretty_remaining_clock
              (Timer.set_remaining (Some 125) Sample.study_running) 125
              eq_refl eq_refl) as [H125 _].
  destruct (@pretty_remaining_clock
              (Timer.set_remaining (Some (-7)) Sample.study_running) (-7)
              eq_refl eq_refl) as [_ [_ [_ [_ [_ Hneg]]]]].
  split; [ reflexivity | ]. split; [ exact H125 | ].
  apply Hneg. discriminate.
Defined.

(** X14: when [pretty_pinstatus] raises.  A stopped timer always has a
    status, the line saying that it is not set up, also when it has stages.
    A running or paused timer has a status exactly when its current stage
    can be looked up and its remaining time is set; otherwise the lookup
    error, or [TypeError] for the missing time, comes out. *)
Theorem pretty_pinstatus_raises_when (self : Timer.t) :
  match Timer.state self with
  | STOPPED =>
      Timer.pretty_pinstatus self
      = Ok (lit "**" ++ Timer.name self ++ lit "**: *Not set up.*")
  | _ =>
      match Timer.subscript (Timer.stages self) (Timer.current_stage self),
            Timer.remaining self with
      | Raise e, _ => Timer.pretty_pinstatus self = Raise e
      | Ok _, None => Timer.pretty_pinstatus self = Raise TypeError
      | Ok _, Some _ => exists s, Timer.pretty_pinstatus self = Ok s
      end
  end.
Proof.
  destruct (Timer.state self) eqn:Hstate.
  - unfold Timer.pretty_pinstatus. rewrite Hstate. reflexivity.
  - destruct (Timer.subscript (Timer.stages self) (Timer.current_stage self))
      as [current|e] eqn:Hc.
    + destruct (Timer.remaining self) as [r|] eqn:Hr.
      * apply pretty_pinstatus_total. right.
        destruct (Timer.stages self) as [l|] eqn:Hl; [ | discriminate Hc ].
        rewrite <- Hl in Hc.
        exists l, current, r. split; [ reflexivity | split; [ rewrite Hl in Hc; exact Hc | first [ exact Hr | reflexivity ] ] ].
      * unfold Timer.pretty_pinstatus, Timer.pretty_remaining.
        rewrite Hstate, Hc, Hr. reflexivity.
    + unfold Timer.pretty_pinstatus. rewrite Hstate, Hc. reflexivity.
  - destruct (Timer.subscript (Timer.stages self) (Timer.current_stage self))
      as [current|e] eqn:Hc.
    + destruct (Timer.remaining self) as [r|] eqn:Hr.
      * apply pretty_pinstatus_total. right.
        destruct (Timer.stages self) as [l|] eqn:Hl; [ | discriminate Hc ].
        rewrite <- Hl in Hc.
        exists l, current, r. split; [ reflexivity | split; [ rewrite Hl in Hc; exact Hc | first [ exact Hr | reflexivity ] ] ].
      * unfold Timer.pretty_pinstatus, Timer.pretty_remaining.
        rewrite Hstate, Hc, Hr. reflexivity.
    + unfold Timer.pretty_pinstatus. rewrite Hstate, Hc. reflexivity.
Qed.





(** ** The clock channel *)

(** X16: [update_clock_channel] in every case.  It never changes the timer.
    Without a clock channel, or within [clock_period] seconds of
    [last_clockupdate], it makes no call and returns.  Otherwise it raises,
    before any call, when the current stage or the remaining time is
    missing; else it makes one call, the edit of the channel name to the
    stage name, a dash and the clock, and returns whatever that call
    answers. *)
Theorem update_clock_channel_cases (w : World) (now : Z) (self : Timer.t) :
  let o := Timer.update_clock_channel w now self in
  final o = self
  /\ match Timer.clock_channel self with
     | None => trace o = [] /\ value o = Ok tt
     | Some clock =>
         if now - Timer.last_clockupdate self <? Timer.clock_period
         then trace o = [] /\ value o = Ok tt
         else
           match Timer.subscript (Timer.stages self) (Timer.current_stage self),
                 Timer.pretty_remaining self with
           | Ok stage, Ok clock_text =>
               trace o = [EvChannelEdit clock
                            (TimerStage.name stage ++ lit " - " ++ clock_text)]
               /\ value o = Ok tt
           | Raise e, _ => trace o = [] /\ value o = Raise e
           | Ok _, Raise e => trace o = [] /\ value o = Raise e
           end
     end.
Proof.
  cbv zeta. split; [ apply update_clock_channel_frame | ].
  unfold Timer.update_clock_channel. run_method.
  destruct (Timer.clock_channel self) as [clock|]; [ | split; reflexivity ].
  destruct (now - Timer.last_clockupdate self <? Timer.clock_period);
    [ split; reflexivity | ].
  destruct (Timer.subscript (Timer.stages self) (Timer.current_stage self))
    as [stage|e]; run_method; [ | split; reflexivity ].
  destruct (Timer.pretty_remaining self) as [clock_text|e]; run_method;
    split; reflexivity.
Qed.

(** ** The loop *)



Section Turn.

Variable w : World.
Variables (now : Z) (frac : bool).
Variable self : Timer.t.
Variable l : list TimerStage.t.
Variables (stage : TimerStage.t) (started : Z).

Hypothesis running : Timer.state self = RUNNING.
Hypothesis has_stages : Timer.stages self = Some l.
Hypothesis has_current : getitem l (Timer.current_stage self) = Ok stage.
Hypothesis has_start : Timer.current_stage_start self = Some started.

Let r : Z := time_left stage started now frac.





End Turn.

(** X17: stopping the loop.  A [runloop] that finds the timer not running,
    paused or stopped, returns at that test of its condition without a call
    and without a change; so after one round of the event loop no task of
    such a timer is left, whatever their number. *)
Theorem runloop_stops (w : World) (now : Z) (frac : bool) (el : EventLoop.t) :
  Timer.state (EventLoop.timer el) <> RUNNING ->
  Timer.runloop_turn w now frac (EventLoop.timer el)
  = Out (EventLoop.timer el) [] (Ok false)
  /\ EventLoop.run_round w now frac el
     = EventLoop.mk (EventLoop.timer el) [] (EventLoop.log el).
Proof.
  intros H.
  pose proof (@runloop_turn_exits w now frac (EventLoop.timer el) H) as Hturn.
  split; [ exact Hturn | ].
  unfold EventLoop.run_round.
  assert (E : forall todo,
             EventLoop.resume_all w now frac todo (EventLoop.timer el)
             = (EventLoop.timer el, [], [])).
  { induction todo as [|[] rest IH]; cbn [EventLoop.resume_all]; [ reflexivity | ].
    rewrite Hturn. cbn [final value trace]. rewrite IH. reflexivity. }
  rewrite E, app_nil_r. reflexivity.
Qed.

Lemma runloop_stops_witness :
  let paused := Timer.set_state PAUSED Sample.study_running in
  let el := EventLoop.mk paused [Runloop; Runloop] [] in
  Timer.state (EventLoop.timer el) <> RUNNING
  /\ EventLoop.tasks (EventLoop.run_round Sample.w_ok 1200 true el) = []
  /\ EventLoop.timer (EventLoop.run_round Sample.w_ok 1200 true el) = paused.
Proof.
  cbv zeta.
  assert (H : Timer.state (EventLoop.timer
                (EventLoop.mk (Timer.set_state PAUSED Sample.study_running)
                              [Runloop; Runloop] [])) <> RUNNING) by discriminate.
  destruct (@runloop_stops Sample.w_ok 1200 true _ H) as [_ Hr].
  split; [ exact H | ]. rewrite Hr. split; reflexivity.
Defined.





Section KeepsRunning.

Variable w : World.
Variable l : list TimerStage.t.
Variable here : handle.

Hypothesis accepted : forall c, exists m, w_send w here c = Ok m.
Hypothesis positive : Forall (fun st => 0 < TimerStage.duration st) l.




End KeepsRunning.





(** ** The status message *)

(** X22: when [update] has nothing to show.  With no member timer it does
    nothing at all; when a member timer has no status (it is running or
    paused without a current stage or a remaining time) the error of that
    timer leaves [update] before any call; in both cases the channel object
    is unchanged.  In every other case [update] makes at least one call. *)
Theorem update_nothing_to_show (w : World) (now : Z) (self : TimerChannel.t) :
  let o := TimerChannel.update w now self in
  (TimerChannel.timers self = [] -> o = Out self [] (Ok tt))
  /\ match rmap Timer.pretty_pinstatus (TimerChannel.timers self) with
     | Raise e => o = Out self [] (Raise e)
     | Ok [] => o = Out self [] (Ok tt)
     | Ok (_ :: _) => trace o <> []
     end.
Proof.
  cbv zeta. split.
  - intros H. unfold TimerChannel.update. run_method. rewrite H.
    cbn [rmap]. run_method. reflexivity.
  - destruct (rmap Timer.pretty_pinstatus (TimerChannel.timers self))
      as [[|first others]|e] eqn:Hr.
    + unfold TimerChannel.update. run_method. rewrite Hr. run_method. reflexivity.
    + destruct (TimerChannel.msg self) as [m|] eqn:Hm.
      * rewrite (update_edits w now self Hr Hm). discriminate.
      * destruct (w_send w (TimerChannel.channel self)
                    (WithEmbed (TimerChannel.status_embed now (first :: others))))
          as [m|e] eqn:Hs.
        -- rewrite (update_creates w now self Hr Hm Hs). discriminate.
        -- assert (He : e = Forbidden \/ e <> Forbidden)
             by (destruct e; (left; reflexivity) || (right; discriminate)).
           destruct He as [-> | He].
           ++ destruct (w_send w (TimerChannel.channel self)
                          (Text TimerChannel.no_embed_notice)) as [m|e'] eqn:Hn.
              ** rewrite (update_forbidden w now self Hr Hm Hs Hn). discriminate.
              ** rewrite (update_notice_fails w now self Hr Hm Hs Hn). discriminate.
           ++ rewrite (update_send_fails w now self Hr Hm Hs He). discriminate.
    + unfold TimerChannel.update. run_method. rewrite Hr. run_method. reflexivity.
Qed.

Lemma update_nothing_to_show_witness :
  TimerChannel.timers (TimerChannel.__init__ 1) = []
  /\ TimerChannel.update Sample.w_ok 5000 (TimerChannel.__init__ 1)
     = Out (TimerChannel.__init__ 1) [] (Ok tt).
Proof.
  split; [ reflexivity | ].
  destruct (@update_nothing_to_show Sample.w_ok 5000 (TimerChannel.__init__ 1))
    as [H _].
  apply H. reflexivity.
Defined.

(** X23: only [Forbidden] is handled when the status message is created.
    When the send of the embed raises another error, that error leaves
    [update] after this one call: no notice is sent, no timer is stopped,
    and no status message is recorded. *)
Theorem update_error_propagates
        (w : World) (now : Z) (self : TimerChannel.t) (messages : list str) (e : exn) :
  TimerChannel.msg self = None ->
  rmap Timer.pretty_pinstatus (TimerChannel.timers self) = Ok messages ->
  messages <> [] ->
  w_send w (TimerChannel.channel self)
         (WithEmbed (TimerChannel.status_embed now messages)) = Raise e ->
  e <> Forbidden ->
  let o := TimerChannel.update w now self in
  value o = Raise e
  /\ trace o = [EvSend (TimerChannel.channel self)
                       (WithEmbed (TimerChannel.status_embed now messages))]
  /\ final o = self.
Proof.
  intros Hm Hr Hne Hs He. cbv zeta.
  destruct messages as [|first others]; [ congruence | ].
  rewrite (update_send_fails w now self Hr Hm Hs He). repeat split.
Qed.

Lemma update_error_propagates_witness :
  let o := TimerChannel.update Faulty.w_http_error 5000 Sample.board in
  TimerChannel.msg Sample.board = None
  /\ value o = Raise HTTPException
  /\ final o = Sample.board
  /\ List.length (trace o) = 1%nat.
Proof.
  cbv zeta.
  destruct (rmap Timer.pretty_pinstatus (TimerChannel.timers Sample.board))
    as [messages|] eqn:Hr; [ | vm_compute in Hr; discriminate Hr ].
  assert (Hne : messages <> []).
  { intros ->. vm_compute in Hr. discriminate Hr. }
  assert (He : HTTPException <> Forbidden) by discriminate.
  destruct (@update_error_propagates Faulty.w_http_error 5000 Sample.board messages
              HTTPException eq_refl Hr Hne eq_refl He) as [Hv [Ht Hf]].
  split; [ reflexivity | ]. split; [ exact Hv | ]. split; [ exact Hf | ].
  rewrite Ht. reflexivity.
Defined.

(** X24: one status message per channel.  Once [update] has created the
    status message, every later [update], whatever the collaborators then
    answer, makes one call, the edit of that same message with the statuses
    of the time, sends nothing, and returns with the channel object as it
    was. *)
Theorem update_then_edits
        (w : World) (now : Z) (self : TimerChannel.t) (messages : list str)
        (m : handle) :
  TimerChannel.msg self = None ->
  rmap Timer.pretty_pinstatus (TimerChannel.timers self) = Ok messages ->
  messages <> [] ->
  w_send w (TimerChannel.channel self)
         (WithEmbed (TimerChannel.status_embed now messages)) = Ok m ->
  let created := final (TimerChannel.update w now self) in
  value (TimerChannel.update w now self) = Ok tt
  /\ TimerChannel.msg created = Some m
  /\ TimerChannel.timers created = TimerChannel.timers self
  /\ forall (w' : World) (later : Z),
       TimerChannel.update w' later created
       = Out created [EvMessageEdit m (TimerChannel.status_embed later messages)]
             (Ok tt).
Proof.
  intros Hm Hr Hne Hs. cbv zeta.
  destruct messages as [|first others]; [ congruence | ].
  rewrite (update_creates w now self Hr Hm Hs). cbn [value final].
  split; [ reflexivity | ]. split; [ reflexivity | ]. split; [ reflexivity | ].
  intros w' later.
  apply (@update_edits w' later (TimerChannel.set_msg (Some m) self) first others Hr m).
  reflexivity.
Qed.

Lemma update_then_edits_witness :
  let created := final (TimerChannel.update Sample.w_ok 5000 Sample.board) in
  TimerChannel.msg Sample.board = None
  /\ TimerChannel.msg created = Some 77
  /\ embeds_sent (trace (TimerChannel.update Faulty.w_no_edit 5005 created)) = []
  /\ value (TimerChannel.update Faulty.w_no_edit 5005 created) = Ok tt.
Proof.
  cbv zeta.
  destruct (rmap Timer.pretty_pinstatus (TimerChannel.timers Sample.board))
    as [messages|] eqn:Hr; [ | vm_compute in Hr; discriminate Hr ].
  assert (Hne : messages <> []).
  { intros ->. vm_compute in Hr. discriminate Hr. }
  destruct (@update_then_edits Sample.w_ok 5000 Sample.board messages 77
              eq_refl Hr Hne eq_refl) as [_ [Hmsg [_ Hlater]]].
  split; [ reflexivity | ]. split; [ exact Hmsg | ].
  rewrite (Hlater Faulty.w_no_edit 5005). split; reflexivity.
Defined.

(** ** Subscribers of a timer *)

(** X25: no method of [Timer] adds or removes a subscriber or touches one:
    [setup], [update_clock_channel], [change_stage], [start] and a turn of
    [runloop] all end, whether they return or raise, with the subscriber
    dict they found, so [userid in timer] answers after the call what it
    answered before. *)
Theorem subscribers_kept (w : World) (now : Z) :
  (forall stages, keeps Timer.subscribed (Timer.setup now stages)
                  /\ keeps Timer.__contains__ (Timer.setup now stages))
  /\ (keeps Timer.subscribed (Timer.update_clock_channel w now)
      /\ keeps Timer.__contains__ (Timer.update_clock_channel w now))
  /\ (forall i notify check report,
        keeps Timer.subscribed (Timer.change_stage w now i notify check report)
        /\ keeps Timer.__contains__ (Timer.change_stage w now i notify check report))
  /\ (keeps Timer.subscribed (Timer.start w now)
      /\ keeps Timer.__contains__ (Timer.start w now))
  /\ (forall frac,
        keeps Timer.subscribed (Timer.runloop_turn w now frac)
        /\ keeps Timer.__contains__ (Timer.runloop_turn w now frac)).
Proof.
  assert (C : forall A (m : M Timer.t A),
             keeps Timer.subscribed m ->
             keeps Timer.subscribed m /\ keeps Timer.__contains__ m).
  { intros A m H. split; [ exact H | ]. intros s. unfold Timer.__contains__.
    rewrite (H s). reflexivity. }
  assert (Hu : keeps Timer.subscribed (Timer.update_clock_channel w now)).
  { unfold Timer.update_clock_channel. repeat keeps_step. }
  assert (Hc : forall i notify check report,
             keeps Timer.subscribed (Timer.change_stage w now i notify check report)).
  { intros. unfold Timer.change_stage, Timer.announce. repeat keeps_step. }
  split; [ intros stages; apply C; unfold Timer.setup; repeat keeps_step | ].
  split; [ apply C; exact Hu | ].
  split; [ intros; apply C; apply Hc | ].
  split; [ apply C; unfold Timer.start; repeat keeps_step; try apply Hc | ].
  intros frac. apply C. unfold Timer.runloop_turn.
  repeat keeps_step; try apply Hc; try apply Hu.
Qed.
